(** * Tiles-Tapestry: the row-packing layout and the compositor of Collage.py

    A shallow embedding of the core of [src/Collage.py] (and of the layout of
    [src/Older Scripts/Collage-V5.py]), followed by the properties of the
    specification that concern it.

    Python integers are [Z].  Python floats are IEEE binary64 values, taken
    from the Standard Library's [SpecFloat] (the executable specification of
    the primitive floats), so that [a / b], [a * f] and [int(f)] round exactly
    as CPython rounds them.  Exceptions are explicit: a computation returns
    [Ok v] or [Raise e].  A Python [str] is a [string] whose characters are
    the code points 0..255. *)

From Stdlib Require Import ZArith List String Ascii Bool Lia.
From Stdlib Require Import Floats.SpecFloat.
Import ListNotations.
Local Open Scope Z_scope.

(** ** The Python runtime the program relies on *)

Module Py.

Inductive exn : Set :=
| ZeroDivisionError
| OverflowError
| ValueError
| TypeError.

Inductive result (A : Type) : Type :=
| Ok (a : A)
| Raise (e : exn).
Arguments Ok {A} a.
Arguments Raise {A} e.

Definition bind {A B} (r : result A) (k : A -> result B) : result B :=
  match r with
  | Ok a => k a
  | Raise e => Raise e
  end.

(** *** Floats: binary64 *)

Definition prec : Z := 53.
Definition emax : Z := 1024.
Definition float : Set := spec_float.

Definition is_finite (f : float) : bool :=
  match f with
  | S754_zero _ | S754_finite _ _ _ => true
  | _ => false
  end.

Definition is_zero (f : float) : bool :=
  match f with
  | S754_zero _ => true
  | _ => false
  end.

(** A float literal [m * 2^e], in canonical form. *)
Definition literal (m e : Z) : float := binary_normalize prec emax m e false.

(** [float(z)], the conversion Python applies to the [int] operand of a
    mixed operation: round to nearest even, [OverflowError] beyond the
    range. *)
Definition float_of_int (z : Z) : result float :=
  let f := binary_normalize prec emax z 0 false in
  if is_finite f then Ok f else Raise OverflowError.

(** The integer [z] as an unrounded significand with exponent 0. *)
Definition exact_int (z : Z) : float :=
  match z with
  | Z0 => S754_zero false
  | Zpos p => S754_finite false p 0
  | Zneg p => S754_finite true p 0
  end.

(** [a / b] on two [int]s: the correctly rounded quotient of the exact
    integers; [ZeroDivisionError] on [b = 0], [OverflowError] when the
    quotient is beyond the float range. *)
Definition int_truediv (a b : Z) : result float :=
  if b =? 0 then Raise ZeroDivisionError
  else
    let q := SFdiv prec emax (exact_int a) (exact_int b) in
    if is_finite q then Ok q else Raise OverflowError.

(** [x / y] on two floats. *)
Definition float_truediv (x y : float) : result float :=
  if is_zero y then Raise ZeroDivisionError else Ok (SFdiv prec emax x y).

(** [n / y] and [n * y] with an [int] on the left. *)
Definition int_div_float (n : Z) (y : float) : result float :=
  bind (float_of_int n) (fun x => float_truediv x y).

Definition int_mul_float (n : Z) (y : float) : result float :=
  bind (float_of_int n) (fun x => Ok (SFmul prec emax x y)).

(** [x > y]. *)
Definition float_gt (x y : float) : bool := SFltb y x.

(** [int(f)]: truncation toward zero. *)
Definition int_of_float (f : float) : result Z :=
  match f with
  | S754_zero _ => Ok 0
  | S754_nan => Raise ValueError
  | S754_infinity _ => Raise OverflowError
  | S754_finite s m e =>
      let a := match e with
               | Z0 => Zpos m
               | Zpos k => Z.shiftl (Zpos m) (Zpos k)
               | Zneg k => Z.shiftr (Zpos m) (Zpos k)
               end in
      Ok (if s then - a else a)
  end.

(** *** Strings

    [str.strip()] removes the characters for which [str.isspace] holds;
    below code point 256 these are 9..13, 28..32, 133 and 160.  [int(s)] and
    [int(s, 16)] skip a smaller set around the number: 9..13, 32, 133 and
    160. *)

Definition code (a : ascii) : Z := Z.of_N (N_of_ascii a).

Definition between (lo hi n : Z) : bool := (lo <=? n) && (n <=? hi).

Definition isspace (a : ascii) : bool :=
  let n := code a in
  between 9 13 n || between 28 32 n || (n =? 133) || (n =? 160).

Definition int_space (a : ascii) : bool :=
  let n := code a in
  between 9 13 n || (n =? 32) || (n =? 133) || (n =? 160).

Fixpoint lstrip_with (sp : ascii -> bool) (s : string) : string :=
  match s with
  | String a r => if sp a then lstrip_with sp r else s
  | EmptyString => EmptyString
  end.

Fixpoint rstrip_with (sp : ascii -> bool) (s : string) : string :=
  match s with
  | String a r =>
      match rstrip_with sp r with
      | EmptyString => if sp a then EmptyString else String a EmptyString
      | r' => String a r'
      end
  | EmptyString => EmptyString
  end.

(** [s.strip()] *)
Definition strip (s : string) : string :=
  rstrip_with isspace (lstrip_with isspace s).

(** [s.startswith(a)] for a one-character [a] *)
Definition startswith (a : ascii) (s : string) : bool :=
  match s with
  | String b _ => Ascii.eqb a b
  | EmptyString => false
  end.

(** [s[i:j]] for [0 <= i <= j] *)
Definition slice (i j : nat) (s : string) : string :=
  String.substring i (j - i) s.

(** [s[1:]] *)
Definition tail (s : string) : string :=
  match s with
  | String _ r => r
  | EmptyString => EmptyString
  end.

(** The value of a digit or letter, as [int] reads it in any base. *)
Definition digit_value (a : ascii) : option Z :=
  let n := code a in
  if between 48 57 n then Some (n - 48)
  else if between 97 122 n then Some (n - 87)
  else if between 65 90 n then Some (n - 55)
  else None.

Definition is_digit (base : Z) (a : ascii) : bool :=
  match digit_value a with
  | Some d => d <? base
  | None => false
  end.

Definition underscore : ascii := "_"%char.

(** The digits of a number, single underscores allowed between them.
    Returns the value read and the text after the number; fails on a
    doubled or a trailing underscore. *)
Fixpoint scan_digits (base : Z) (s : string) (acc : Z) (after_underscore : bool)
  : option (Z * string) :=
  match s with
  | EmptyString => if after_underscore then None else Some (acc, s)
  | String a r =>
      if Ascii.eqb a underscore then
        if after_underscore then None else scan_digits base r acc true
      else
        match digit_value a with
        | Some d =>
            if d <? base then scan_digits base r (acc * base + d) false
            else if after_underscore then None else Some (acc, s)
        | None => if after_underscore then None else Some (acc, s)
        end
  end.

(** The sign, and the text after it. *)
Definition take_sign (s : string) : bool * string :=
  match s with
  | String "+"%char r => (false, r)
  | String "-"%char r => (true, r)
  | _ => (false, s)
  end.

(** The prefix [0x] or [0X] that base 16 accepts, and one underscore after
    it. *)
Definition take_prefix (base : Z) (s : string) : string :=
  if base =? 16 then
    match s with
    | String "0"%char (String ("x" | "X")%char r) =>
        match r with
        | String "_"%char r' => r'
        | _ => r
        end
    | _ => s
    end
  else s.

(** [int(s, base)] for [base] 10 or 16; [None] is [ValueError].  The limit
    on the number of decimal digits of recent interpreters (4300 by
    default) is not part of this function. *)
Definition int_base (base : Z) (s : string) : option Z :=
  let '(negative, s) := take_sign (lstrip_with int_space s) in
  let s := take_prefix base s in
  match s with
  | String a _ =>
      if is_digit base a then
        match scan_digits base s 0 false with
        | Some (v, rest) =>
            match lstrip_with int_space rest with
            | EmptyString => Some (if negative then - v else v)
            | _ => None
            end
        | None => None
        end
      else None
  | EmptyString => None
  end.

End Py.

Import Py.

Notation "x <- c1 ;; c2" := (Py.bind c1 (fun x => c2))
  (at level 61, c1 at next level, right associativity).

(** ** Row packing ([recalc_layout], the loop)

    The loop is the same text in every version of the program; the versions
    differ in the test that skips an entry and in the fields of an entry.  It
    is written once, over the entry type, its two sizes, the skip test and the
    assignment of [entry.x], [entry.y]. *)

Section RowPacking.

Context {entry : Type}.
Variable skip : entry -> bool.
Variable target_w target_h : entry -> Z.
Variable assign_xy : entry -> Z -> Z -> entry.

Record cursor : Set := Cursor {
  current_x : Z;
  current_y : Z;
  current_row_height : Z
}.

(** [OVERFLOW_THRESHOLD = 0.5] *)
Definition OVERFLOW_THRESHOLD : Py.float := Py.literal 1 (-1).

(** The three assignments that start a new row. *)
Definition new_row (border : Z) (c : cursor) : cursor :=
  {| current_x := border;
     current_y := current_y c + (current_row_height c + border);
     current_row_height := 0 |}.

(** The cursor and the value of [free_space] after the first test of the
    loop body ([if free_space <= 0]). *)
Definition after_full_row (collage_width border : Z) (c : cursor)
  : cursor * Z :=
  let free_space := collage_width - current_x c - border in
  if free_space <=? 0 then
    let c1 := new_row border c in
    (c1, collage_width - current_x c1 - border)
  else (c, free_space).

(** The second test ([if entry.target_w > free_space]). *)
Definition after_overflow (border : Z) (c : cursor) (free_space : Z)
  (e : entry) : Py.result cursor :=
  if free_space <? target_w e then
    let overflow := target_w e - free_space in
    ratio <- Py.int_truediv overflow (target_w e) ;;
    Ok (if Py.float_gt ratio OVERFLOW_THRESHOLD then new_row border c else c)
  else Ok c.

(** The four statements that place the entry and advance the cursor. *)
Definition place (border : Z) (c : cursor) (e : entry) : cursor * entry :=
  ({| current_x := current_x c + (target_w e + border);
      current_y := current_y c;
      current_row_height := Z.max (current_row_height c) (target_h e) |},
   assign_xy e (current_x c) (current_y c)).

(** One iteration of the [for] loop. *)
Definition layout_entry (collage_width border : Z) (c : cursor) (e : entry)
  : Py.result (cursor * entry) :=
  if skip e then Ok (c, e)
  else
    let '(c1, free_space) := after_full_row collage_width border c in
    c2 <- after_overflow border c1 free_space e ;;
    Ok (place border c2 e).

(** The loop over [self.images].  Entries are objects mutated in place: when
    an iteration raises, the entries already placed keep their new
    positions and the others are as they were. *)
Fixpoint layout_loop (collage_width border : Z) (c : cursor)
  (images : list entry) : list entry * option Py.exn :=
  match images with
  | [] => ([], None)
  | e :: rest =>
      match layout_entry collage_width border c e with
      | Raise ex => (e :: rest, Some ex)
      | Ok (c', e') =>
          let '(rest', r) := layout_loop collage_width border c' rest in
          (e' :: rest', r)
      end
  end.

Definition start (border : Z) : cursor :=
  {| current_x := border; current_y := border; current_row_height := 0 |}.

Definition layout (collage_width border : Z) (images : list entry)
  : list entry * option Py.exn :=
  layout_loop collage_width border (start border) images.

(** The cursor is below and right of the border, and the row has a height. *)
Definition within (border : Z) (c : cursor) : Prop :=
  border <= current_x c /\ border <= current_y c /\ 0 <= current_row_height c.

(** The relation between an entry before and after a run of the loop:
    untouched, or assigned a position at or beyond the border. *)
Definition kept_or_placed (border : Z) (e e' : entry) : Prop :=
  e' = e
  \/ exists px py, e' = assign_xy e px py /\ border <= px /\ border <= py.

(** The same when the loop ran to its end: untouched exactly when the skip
    test holds. *)
Definition skipped_or_placed (border : Z) (e e' : entry) : Prop :=
  if skip e then e' = e
  else exists px py, e' = assign_xy e px py /\ border <= px /\ border <= py.

End RowPacking.

Arguments Cursor _ _ _ : clear implicits.



(** ** What the program observes and does outside itself

    The settings are text fields, read with [int(...)]; bitmaps are opened,
    cropped and resized by the imaging library.  Both are parameters of the
    model: a record of the answers the environment gives. *)

Definition box : Set := (Z * Z * Z * Z)%type.

Record environment : Type := Environment {
  (** [int(s)] on the text of a settings field; [None] is [ValueError] *)
  int_of_str : string -> option Z;
  (** [Image.new("RGBA", (w, h), color)]; raises on sizes the library refuses *)
  image_new : Z -> Z -> Py.result unit;
  (** [Image.open(path)]: the size of the bitmap, [None] when it raises *)
  image_open : string -> option (Z * Z);
  (** [im.crop(box).resize((w, h), Image.LANCZOS)] on the bitmap at [path]:
      [false] when either call raises *)
  crop_resize : string -> box -> Z -> Z -> bool
}.

Definition rgba : Set := (Z * Z * Z * Z)%type.

(** What a run shows or paints, in order. *)
Inductive event : Set :=
| ShowWarning (title message : string)
    (** [messagebox.showwarning(title, message)] *)
| PrintError (path : string)
    (** [print(f"Error processing {entry.path}: {e}")] *)
| NewImage (width height : Z) (color : rgba)
    (** [Image.new("RGBA", (width, height), color)] *)
| Paste (path : string) (source : box) (destination : box) (radius : option Z).
    (** [collage.paste(portion, inter[, portion_mask])], where [portion] is
        the region [source] of the resized bitmap of [path] and
        [portion_mask] the same region of its rounded mask *)

(** The result of a method: the entries as the call leaves them, what it
    showed or painted, and the value it returned or the exception it raised. *)
Record run (entry A : Type) : Type := Run {
  images_after : list entry;
  trace : list event;
  value : Py.result A
}.
Arguments Run {entry A} _ _ _.
Arguments images_after {entry A} _.
Arguments trace {entry A} _.
Arguments value {entry A} _.

(** ** src/Collage.py *)

Module Collage.

(** [parse_hex_color] *)
Definition parse_hex_color (hex_color : string) : rgba :=
  let c := Py.strip hex_color in
  let c := if Py.startswith "#"%char c then Py.tail c else c in
  if Nat.eqb (String.length c) 6 then
    match Py.int_base 16 (Py.slice 0 2 c),
          Py.int_base 16 (Py.slice 2 4 c),
          Py.int_base 16 (Py.slice 4 6 c) with
    | Some r, Some g, Some b => (r, g, b, 255)
    | _, _, _ => (0, 0, 0, 255)
    end
  else (0, 0, 0, 255).

(** [crop_to_aspect]: the box handed to [img.crop], for an image of size
    [(orig_w, orig_h)]. *)
Definition crop_to_aspect (size : Z * Z) (target_w target_h : Z)
  : Py.result box :=
  let '(orig_w, orig_h) := size in
  target_aspect <- Py.int_truediv target_w target_h ;;
  orig_aspect <- Py.int_truediv orig_w orig_h ;;
  if Py.float_gt target_aspect orig_aspect then
    q <- Py.int_div_float orig_w target_aspect ;;
    new_height <- Py.int_of_float q ;;
    let top := (orig_h - new_height) / 2 in
    Ok (0, top, orig_w, top + new_height)
  else
    p <- Py.int_mul_float orig_h target_aspect ;;
    new_width <- Py.int_of_float p ;;
    let left := (orig_w - new_width) / 2 in
    Ok (left, 0, left + new_width, orig_h).

(** [class ImageEntry] *)
Record ImageEntry : Set := {
  path : string;
  orig_w : Z;
  orig_h : Z;
  target_w : Z;
  target_h : Z;
  x : option Z;
  y : option Z;
  manual_x : option Z;
  manual_y : option Z
}.

Definition or_else (a b : option Z) : option Z :=
  match a with
  | Some v => Some v
  | None => b
  end.

(** [ImageEntry.get_display_pos] *)
Definition get_display_pos (e : ImageEntry) : option Z * option Z :=
  (or_else (manual_x e) (x e), or_else (manual_y e) (y e)).

(** [entry.manual_x is not None and entry.manual_y is not None] *)
Definition has_manual_position (e : ImageEntry) : bool :=
  match manual_x e, manual_y e with
  | Some _, Some _ => true
  | _, _ => false
  end.

(** [entry.x = current_x; entry.y = current_y] *)
Definition set_xy (e : ImageEntry) (px py : Z) : ImageEntry :=
  {| path := path e; orig_w := orig_w e; orig_h := orig_h e;
     target_w := target_w e; target_h := target_h e;
     x := Some px; y := Some py;
     manual_x := manual_x e; manual_y := manual_y e |}.

(** The fields of [CollageApp] that the layout and the compositor read. *)
Record CollageApp : Set := {
  images : list ImageEntry;
  collage_width_var : string;
  collage_height_var : string;
  border_var : string;
  bg_color_var : string;
  corner_radius_var : string
}.

(** The loop of [recalc_layout] and its body, for this version. *)
Definition layout_entry :=
  layout_entry has_manual_position target_w target_h set_xy.

Definition layout := layout has_manual_position target_w target_h set_xy.

Section Methods.

Variable env : environment.

(** [CollageApp.recalc_layout] *)
Definition recalc_layout (self : CollageApp) : run ImageEntry unit :=
  match int_of_str env (collage_width_var self),
        int_of_str env (border_var self) with
  | Some collage_width, Some border =>
      let '(placed, raised) := layout collage_width border (images self) in
      Run placed []
          match raised with
          | None => Ok tt
          | Some ex => Raise ex
          end
  | _, _ => Run (images self) [] (Ok tt)
  end.

(** The [try] block of the loop of [build_collage]: [true] when the
    bitmap was opened, cropped and resized. *)
Definition resized (e : ImageEntry) : bool :=
  match image_open env (path e) with
  | Some size =>
      match crop_to_aspect size (target_w e) (target_h e) with
      | Ok region => crop_resize env (path e) region (target_w e) (target_h e)
      | Raise _ => false
      end
  | None => false
  end.

Definition intersection (img_box safe_area : box) : box :=
  let '(a0, a1, a2, a3) := img_box in
  let '(s0, s1, s2, s3) := safe_area in
  (Z.max a0 s0, Z.max a1 s1, Z.min a2 s2, Z.min a3 s3).

(** One iteration of the loop of [build_collage]. *)
Definition composite_entry (safe_area : box) (corner_radius : Z)
  (e : ImageEntry) : Py.result (list event) :=
  if resized e then
    let mask := if 0 <? corner_radius then Some corner_radius else None in
    match or_else (manual_x e) (x e), or_else (manual_y e) (y e) with
    | Some x, Some y =>
        let img_box := (x, y, x + target_w e, y + target_h e) in
        let inter := intersection img_box safe_area in
        let '(i0, i1, i2, i3) := inter in
        if (i0 <? i2) && (i1 <? i3) then
          let src_x := i0 - x in
          let src_y := i1 - y in
          let src_x2 := src_x + (i2 - i0) in
          let src_y2 := src_y + (i3 - i1) in
          Ok [Paste (path e) (src_x, src_y, src_x2, src_y2) inter mask]
        else Ok []
    | _, _ => Raise TypeError
    end
  else Ok [PrintError (path e)].

Fixpoint composite_loop (safe_area : box) (corner_radius : Z)
  (entries : list ImageEntry) : list event * option Py.exn :=
  match entries with
  | [] => ([], None)
  | e :: rest =>
      match composite_entry safe_area corner_radius e with
      | Raise ex => ([], Some ex)
      | Ok painted =>
          let '(later, raised) := composite_loop safe_area corner_radius rest in
          (painted ++ later, raised)
      end
  end.

Definition invalid_settings : event :=
  ShowWarning "Invalid Settings"
    "Width, Height, Border, and Corner Radius must be integers.".

(** [CollageApp.build_collage]; the value is the size of the image
    returned, [None] for [return None]. *)
Definition build_collage (self : CollageApp) : run ImageEntry (option (Z * Z)) :=
  match int_of_str env (collage_width_var self),
        int_of_str env (collage_height_var self),
        int_of_str env (border_var self),
        int_of_str env (corner_radius_var self) with
  | Some cw, Some ch, Some border, Some corner_radius =>
      let bg_rgba := parse_hex_color (bg_color_var self) in
      match image_new env cw ch with
      | Raise ex => Run (images self) [] (Raise ex)
      | Ok _ =>
          let created := NewImage cw ch bg_rgba in
          let safe_area := (border, border, cw - border, ch - border) in
          let laid := recalc_layout self in
          match value laid with
          | Raise ex => Run (images_after laid) [created] (Raise ex)
          | Ok _ =>
              let '(painted, raised) :=
                composite_loop safe_area corner_radius (images_after laid) in
              Run (images_after laid) (created :: painted)
                  match raised with
                  | None => Ok (Some (cw, ch))
                  | Some ex => Raise ex
                  end
          end
      end
  | _, _, _, _ => Run (images self) [invalid_settings] (Ok None)
  end.

End Methods.

End Collage.

(** ** src/Older Scripts/Collage-V5.py: the layout

    The preview cache that this version clears at the end of each iteration
    ([self.invalidate_cache()]) is not part of the model. *)

Module CollageV5.

(** [class ImageEntry] *)
Record ImageEntry : Set := {
  path : string;
  orig_w : Z;
  orig_h : Z;
  target_w : Z;
  target_h : Z;
  x : option Z;
  y : option Z;
  manual_x : option Z;
  manual_y : option Z;
  locked : bool;
  corner_radius : Z;
  template_tag : option string
}.

(** [ImageEntry.get_display_pos] *)
Definition get_display_pos (e : ImageEntry) : option Z * option Z :=
  (Collage.or_else (manual_x e) (x e), Collage.or_else (manual_y e) (y e)).

(** [entry.x = current_x; entry.y = current_y] *)
Definition set_xy (e : ImageEntry) (px py : Z) : ImageEntry :=
  {| path := path e; orig_w := orig_w e; orig_h := orig_h e;
     target_w := target_w e; target_h := target_h e;
     x := Some px; y := Some py;
     manual_x := manual_x e; manual_y := manual_y e;
     locked := locked e; corner_radius := corner_radius e;
     template_tag := template_tag e |}.

Record CollageApp : Set := {
  images : list ImageEntry;
  collage_width_var : string;
  border_var : string
}.

(** The loop of [recalc_layout] and its body, for this version. *)
Definition layout_entry := layout_entry locked target_w target_h set_xy.

Definition layout := layout locked target_w target_h set_xy.

(** [CollageApp.recalc_layout] *)
Definition recalc_layout (env : environment) (self : CollageApp)
  : run ImageEntry unit :=
  match int_of_str env (collage_width_var self),
        int_of_str env (border_var self) with
  | Some collage_width, Some border =>
      let '(placed, raised) := layout collage_width border (images self) in
      Run placed []
          match raised with
          | None => Ok tt
          | Some ex => Raise ex
          end
  | _, _ => Run (images self) [] (Ok tt)
  end.

End CollageV5.

(** [recalc_layout] called once for each pair of settings of [calls] (the
    texts of the width and border fields at that call), in order. *)
Fixpoint recalc_many (env : environment) (calls : list (string * string))
  (entries : list CollageV5.ImageEntry) : list CollageV5.ImageEntry :=
  match calls with
  | [] => entries
  | (width, border) :: later =>
      recalc_many env later
        (images_after
           (CollageV5.recalc_layout env
              {| CollageV5.images := entries;
                 CollageV5.collage_width_var := width;
                 CollageV5.border_var := border |}))
  end.

(** A run reports an error when it shows a warning, prints a diagnostic or
    raises. *)
Definition reports_error {entry A : Type} (r : run entry A) : Prop :=
  (exists title message, In (ShowWarning title message) (trace r))
  \/ (exists p, In (PrintError p) (trace r))
  \/ (exists ex, value r = Raise ex).

(** The events that paint. *)
Definition is_paste (ev : event) : bool :=
  match ev with
  | Paste _ _ _ _ => true
  | _ => false
  end.

(** The colors that the specification takes [parse_hex_color] to accept:
    six hexadecimal digits, with or without a [#] before them. *)
Definition hex_digit (a : ascii) : bool := Py.is_digit 16 a.

Fixpoint all_hex (s : string) : bool :=
  match s with
  | EmptyString => true
  | String a r => hex_digit a && all_hex r
  end.

Definition well_formed_hex (s : string) : bool :=
  let digits := if Py.startswith "#"%char s then Py.tail s else s in
  Nat.eqb (String.length digits) 6 && all_hex digits.

(** The text [parse_hex_color] reads its three numbers from: the stripped
    text without its leading [#]. *)
Definition hex_text (hex_color : string) : string :=
  let c := Py.strip hex_color in
  if Py.startswith "#"%char c then Py.tail c else c.

(** The width and height of a box [(left, top, right, bottom)], and the
    boxes whose sides are in the ratio [target_w : target_h]. *)
Definition box_width (b : box) : Z := let '(l, _, r, _) := b in r - l.

Definition box_height (b : box) : Z := let '(_, t, _, d) := b in d - t.

Definition has_aspect (b : box) (target_w target_h : Z) : Prop :=
  box_width b * target_h = box_height b * target_w.

(** The boxes that lie in an image of the given size with equal margins left
    and right, and top and bottom, up to the odd pixel. *)
Definition centered_in (size : Z * Z) (b : box) : Prop :=
  let '(w, h) := size in
  let '(l, t, r, d) := b in
  0 <= l /\ r <= w /\ 0 <= t /\ d <= h
  /\ 0 <= (w - r) - l <= 1 /\ 0 <= (h - d) - t <= 1.

(** The test [ratio > OVERFLOW_THRESHOLD] on the float [overflow / target_w]
    and the test [2 * overflow > target_w] on the integers give the same
    answer. *)
Definition ratio_test_agrees (target_w overflow : Z) : bool :=
  match Py.int_truediv overflow target_w with
  | Ok ratio =>
      Bool.eqb (Py.float_gt ratio OVERFLOW_THRESHOLD) (target_w <? 2 * overflow)
  | Raise _ => false
  end.

(** The integers [lo, lo + 1, ..., lo + n - 1]. *)
Definition Zrange (lo : Z) (n : nat) : list Z :=
  map (fun k => lo + Z.of_nat k) (seq 0 n).

(** No character of the text is blank. *)
Fixpoint none_blank (s : string) : bool :=
  match s with
  | EmptyString => true
  | String a r => negb (Py.isspace a) && none_blank r
  end.

(** The 256 characters, and the two-character text [ab]. *)
Definition all_ascii : list ascii := map ascii_of_nat (seq 0 256).

Definition two (a b : ascii) : string := String a (String b EmptyString).

(** What [int(ab, 16)] returns lies between -15 and 255. *)
Definition two_bounded (a b : ascii) : bool :=
  match Py.int_base 16 (two a b) with
  | Some v => (-15 <=? v) && (v <=? 255)
  | None => true
  end.

(** On two hexadecimal digits [int(ab, 16)] is their value, from 0 to 255. *)
Definition two_hex_valued (a b : ascii) : bool :=
  if hex_digit a && hex_digit b then
    match Py.int_base 16 (two a b), Py.digit_value a, Py.digit_value b with
    | Some v, Some da, Some db => (v =? 16 * da + db) && (0 <=? v) && (v <=? 255)
    | _, _, _ => false
    end
  else true.

(** A hexadecimal digit is not blank and is not [#]. *)
Definition hex_not_blank (a : ascii) : bool :=
  if hex_digit a then negb (Py.isspace a) && negb (Ascii.eqb "#"%char a)
  else true.

(** ** Sample data for the worked examples *)

Module Sample.

Local Open Scope string_scope.

(** An environment in which the settings are read as decimal numbers, every
    file but [missing.png] is a 400 x 400 bitmap, and the imaging library
    refuses only negative sizes. *)
Definition env : environment :=
  {| int_of_str := Py.int_base 10;
     image_new := fun w h =>
       if ((w <? 0) || (h <? 0))%Z then Raise ValueError else Ok tt;
     image_open := fun p =>
       if String.eqb p "missing.png" then None else Some (400, 400);
     crop_resize := fun _ _ _ _ => true |}.

(** [ImageEntry(path, 400, 400, w, h)] *)
Definition tile (p : string) (w h : Z) : Collage.ImageEntry :=
  {| Collage.path := p; Collage.orig_w := 400; Collage.orig_h := 400;
     Collage.target_w := w; Collage.target_h := h;
     Collage.x := None; Collage.y := None;
     Collage.manual_x := None; Collage.manual_y := None |}.

Definition with_manual (mx my : option Z) (e : Collage.ImageEntry)
  : Collage.ImageEntry :=
  {| Collage.path := Collage.path e;
     Collage.orig_w := Collage.orig_w e; Collage.orig_h := Collage.orig_h e;
     Collage.target_w := Collage.target_w e;
     Collage.target_h := Collage.target_h e;
     Collage.x := Collage.x e; Collage.y := Collage.y e;
     Collage.manual_x := mx; Collage.manual_y := my |}.

Definition app (width height border : string)
  (entries : list Collage.ImageEntry) : Collage.CollageApp :=
  {| Collage.images := entries;
     Collage.collage_width_var := width;
     Collage.collage_height_var := height;
     Collage.border_var := border;
     Collage.bg_color_var := "#000000";
     Collage.corner_radius_var := "0" |}.

(** Three tiles of 50 x 20 on a canvas of width 100 with border 10. *)
Definition three_tiles : Collage.CollageApp :=
  app "100" "100" "10"
    [tile "a.png" 50 20; tile "b.png" 50 20; tile "c.png" 50 20].

(** The same canvas, the second of three files being unreadable. *)
Definition one_unreadable : Collage.CollageApp :=
  app "100" "100" "10"
    [tile "a.png" 50 20; tile "missing.png" 50 20; tile "c.png" 50 20].

(** A canvas whose corner radius field reads [2.5]. *)
Definition fractional_radius : Collage.CollageApp :=
  {| Collage.images := [tile "a.png" 50 20];
     Collage.collage_width_var := "100";
     Collage.collage_height_var := "100";
     Collage.border_var := "10";
     Collage.bg_color_var := "#000000";
     Collage.corner_radius_var := "2.5" |}.

(** [ImageEntry] of Collage-V5.py, as the dialog creates it. *)
Definition tile_v5 (p : string) (w h : Z) (lock : bool)
  : CollageV5.ImageEntry :=
  {| CollageV5.path := p; CollageV5.orig_w := 400; CollageV5.orig_h := 400;
     CollageV5.target_w := w; CollageV5.target_h := h;
     CollageV5.x := None; CollageV5.y := None;
     CollageV5.manual_x := None; CollageV5.manual_y := None;
     CollageV5.locked := lock; CollageV5.corner_radius := 0;
     CollageV5.template_tag := None |}.

Definition app_v5 (width border : string)
  (entries : list CollageV5.ImageEntry) : CollageV5.CollageApp :=
  {| CollageV5.images := entries;
     CollageV5.collage_width_var := width;
     CollageV5.border_var := border |}.

End Sample.

(** ** Rectangles of placed entries

    A rectangle is its left and top coordinates, its width and its height. *)

Definition rect : Set := (Z * Z * Z * Z)%type.

(** The rectangle lies behind the cursor: in the current row, left of the
    cursor by the border and no taller than the row, or above the current row
    by the border. *)
Definition behind (border : Z) (c : cursor) (r : rect) : Prop :=
  let '(rx, ry, rw, rh) := r in
  (ry = current_y c /\ rx + rw + border <= current_x c
   /\ rh <= current_row_height c)
  \/ ry + rh + border <= current_y c.

(** A rectangle at [(x2, y2)] follows the rectangle [r1] in the rows: in the
    same row, right of it by the border, or below it by the border. *)
Definition follows (border : Z) (r1 : rect) (x2 y2 : Z) : Prop :=
  let '(x1, y1, w1, h1) := r1 in
  (y1 = y2 /\ x1 + w1 + border <= x2) \/ y1 + h1 + border <= y2.

(** The entry [e'] is the entry [e] but for its automatic position. *)
Definition same_but_position (e e' : Collage.ImageEntry) : Prop :=
  Collage.path e' = Collage.path e
  /\ Collage.orig_w e' = Collage.orig_w e
  /\ Collage.orig_h e' = Collage.orig_h e
  /\ Collage.target_w e' = Collage.target_w e
  /\ Collage.target_h e' = Collage.target_h e
  /\ Collage.manual_x e' = Collage.manual_x e
  /\ Collage.manual_y e' = Collage.manual_y e.


(** The application after a method has changed its entries. *)
Definition with_images (self : Collage.CollageApp)
  (entries : list Collage.ImageEntry) : Collage.CollageApp :=
  {| Collage.images := entries;
     Collage.collage_width_var := Collage.collage_width_var self;
     Collage.collage_height_var := Collage.collage_height_var self;
     Collage.border_var := Collage.border_var self;
     Collage.bg_color_var := Collage.bg_color_var self;
     Collage.corner_radius_var := Collage.corner_radius_var self |}.


(** ** What the compositor pastes *)

(** The box [inner] lies in the box [outer]. *)
Definition inside (inner outer : box) : Prop :=
  let '(a0, a1, a2, a3) := inner in
  let '(b0, b1, b2, b3) := outer in
  b0 <= a0 /\ a2 <= b2 /\ b1 <= a1 /\ a3 <= b3.

(** A paste is clipped to the safe area: its destination is a box of positive
    width and height in the safe area, and its source a box of the same
    width and height in the resized bitmap of one of the entries, the one
    whose path it carries. *)
Definition paste_clipped (safe_area : box) (entries : list Collage.ImageEntry)
  (ev : event) : Prop :=
  match ev with
  | Paste p source destination _ =>
      inside destination safe_area
      /\ 0 < box_width destination /\ 0 < box_height destination
      /\ box_width source = box_width destination
      /\ box_height source = box_height destination
      /\ exists e, In e entries /\ Collage.path e = p
                   /\ inside source
                        (0, 0, Collage.target_w e, Collage.target_h e)
  | _ => True
  end.


(** ** Text from numbers

    [str(n)] and [format(n, "02x")] on an [int]. *)

Module PyFormat.

(** The digit of value [d], in lower case. *)
Definition digit_char (d : Z) : ascii :=
  match d with
  | 0 => "0" | 1 => "1" | 2 => "2" | 3 => "3" | 4 => "4"
  | 5 => "5" | 6 => "6" | 7 => "7" | 8 => "8" | 9 => "9"
  | 10 => "a" | 11 => "b" | 12 => "c" | 13 => "d" | 14 => "e"
  | _ => "f"
  end%char.

(** The digits of [n >= 0] written before [acc], in at most [fuel] steps. *)
Fixpoint digits_fuel (fuel : nat) (base n : Z) (acc : string) : string :=
  match fuel with
  | O => acc
  | S fuel' =>
      let acc' := String (digit_char (n mod base)) acc in
      if n / base =? 0 then acc' else digits_fuel fuel' base (n / base) acc'
  end.

(** The digits of [n >= 0] in the base; a number has no more digits than
    bits. *)
Definition digits (base n : Z) : string :=
  digits_fuel (S (Z.to_nat (Z.log2 n))) base n EmptyString.

(** [str(n)] *)
Definition str_of_int (n : Z) : string :=
  if n <? 0 then String "-"%char (digits 10 (- n)) else digits 10 n.

(** [format(n, "02x")]: lower-case hexadecimal, filled with zeros after the
    sign to a width of two. *)
Definition format_02x (n : Z) : string :=
  if n <? 0 then String "-"%char (digits 16 (- n))
  else
    let d := digits 16 n in
    if Nat.ltb (String.length d) 2 then String "0"%char d else d.

End PyFormat.

(** ** src/Collage.py: the colors of the window *)

Module Colors.

(** [hex_to_rgb] *)
Definition hex_to_rgb (hex_color : string) : Py.result (Z * Z * Z) :=
  let c := Py.strip hex_color in
  let c := if Py.startswith "#"%char c then Py.tail c else c in
  if Nat.eqb (String.length c) 6 then
    match Py.int_base 16 (Py.slice 0 2 c) with
    | None => Raise ValueError
    | Some r =>
        match Py.int_base 16 (Py.slice 2 4 c) with
        | None => Raise ValueError
        | Some g =>
            match Py.int_base 16 (Py.slice 4 6 c) with
            | None => Raise ValueError
            | Some b => Ok (r, g, b)
            end
        end
    end
  else Ok (0, 0, 0).

(** [rgb_to_hex] *)
Definition rgb_to_hex (rgb : Z * Z * Z) : string :=
  let '(r, g, b) := rgb in
  String "#"%char
    (PyFormat.format_02x r ++ PyFormat.format_02x g ++ PyFormat.format_02x b).

(** [int(v + (255 - v) * factor)] *)
Definition lighten_channel (v : Z) (factor : Py.float) : Py.result Z :=
  product <- Py.int_mul_float (255 - v) factor ;;
  fv <- Py.float_of_int v ;;
  Py.int_of_float (SFadd Py.prec Py.emax fv product).

(** [int(v * (1 - factor))] *)
Definition darken_channel (v : Z) (factor : Py.float) : Py.result Z :=
  one <- Py.float_of_int 1 ;;
  product <- Py.int_mul_float v (SFsub Py.prec Py.emax one factor) ;;
  Py.int_of_float product.

(** [lighten_color] *)
Definition lighten_color (hex_color : string) (factor : Py.float)
  : Py.result string :=
  rgb <- hex_to_rgb hex_color ;;
  let '(r, g, b) := rgb in
  r <- lighten_channel r factor ;;
  g <- lighten_channel g factor ;;
  b <- lighten_channel b factor ;;
  Ok (rgb_to_hex (r, g, b)).

(** [darken_color] *)
Definition darken_color (hex_color : string) (factor : Py.float)
  : Py.result string :=
  rgb <- hex_to_rgb hex_color ;;
  let '(r, g, b) := rgb in
  r <- darken_channel r factor ;;
  g <- darken_channel g factor ;;
  b <- darken_channel b factor ;;
  Ok (rgb_to_hex (r, g, b)).

(** The factors the program passes: [0.1], [0.2] (the default) and [0.3]. *)
Definition factor_0_1 : Py.float := Py.literal 3602879701896397 (-55).
Definition factor_0_2 : Py.float := Py.literal 3602879701896397 (-54).
Definition factor_0_3 : Py.float := Py.literal 5404319552844595 (-54).

End Colors.


(** Checks on one channel of a color, for the values 0 to 255:
    [format(v, "02x")] is two hexadecimal digits that [int(.., 16)] reads
    back as [v]; lightening gives a value from [v] to 255, darkening a value
    from 0 to [v]. *)
Definition channel_written (v : Z) : bool :=
  match PyFormat.format_02x v with
  | String a (String b EmptyString) =>
      hex_digit a && hex_digit b
      && match Py.int_base 16 (two a b) with
         | Some u => u =? v
         | None => false
         end
  | _ => false
  end.

Definition lighten_checked (factor : Py.float) (v : Z) : bool :=
  match Colors.lighten_channel v factor with
  | Ok u => (v <=? u) && (u <=? 255)
  | Raise _ => false
  end.

Definition darken_checked (factor : Py.float) (v : Z) : bool :=
  match Colors.darken_channel v factor with
  | Ok u => (0 <=? u) && (u <=? v)
  | Raise _ => false
  end.

Definition factors : list Py.float :=
  [Colors.factor_0_1; Colors.factor_0_2; Colors.factor_0_3].


(** ** src/Collage.py: the image dialog and the list of images *)

Module Dialog.

Import Collage.

(** The texts of the four fields of the dialog when OK is pressed. *)
Record fields : Set := {
  tw_entry : string;
  th_entry : string;
  mx_entry : string;
  my_entry : string
}.

(** The [entry] argument of [open_image_dialog]: [None], with the path and
    the size of the new image, or the entry at a place of [self.images]. *)
Inductive subject : Set :=
| NewEntry (path : string) (orig_w orig_h : Z)
| EntryAt (index : nat).

(** [mx_entry.get().strip()] is not empty *)
Definition filled (text : string) : bool :=
  match Py.strip text with
  | EmptyString => false
  | _ => true
  end.

Definition warning (title message : string) (self : CollageApp)
  : run ImageEntry unit :=
  Run (images self) [ShowWarning title message] (Ok tt).

(** The four assignments to the entry being edited. *)
Definition edit (e : ImageEntry) (tw th : Z) (mx my : option Z) : ImageEntry :=
  {| path := path e; orig_w := orig_w e; orig_h := orig_h e;
     target_w := tw; target_h := th;
     x := x e; y := y e;
     manual_x := mx; manual_y := my |}.

(** [ImageEntry(path, orig_w, orig_h, tw, th)] with its manual position *)
Definition create (p : string) (ow oh tw th : Z) (mx my : option Z)
  : ImageEntry :=
  {| path := p; orig_w := ow; orig_h := oh;
     target_w := tw; target_h := th;
     x := None; y := None;
     manual_x := mx; manual_y := my |}.

(** The entries with the one at [index] changed by [f]; an index beyond the
    list is an entry that is no longer in it. *)
Fixpoint change_nth (index : nat) (f : ImageEntry -> ImageEntry)
  (entries : list ImageEntry) : list ImageEntry :=
  match entries, index with
  | [], _ => []
  | e :: rest, O => f e :: rest
  | e :: rest, S i => e :: change_nth i f rest
  end.

(** [self.images] after the assignments of [on_ok], before the layout. *)
Definition confirmed (self : CollageApp) (s : subject) (tw th : Z)
  (mx my : option Z) : list ImageEntry :=
  match s with
  | NewEntry p ow oh => images self ++ [create p ow oh tw th mx my]
  | EntryAt index => change_nth index (fun e => edit e tw th mx my) (images self)
  end.

(** A field that may be left blank: [None] when it is blank, the number
    when [int] reads it; the outer [None] is [ValueError]. *)
Definition optional_int (env : environment) (text : string)
  : option (option Z) :=
  if filled text then
    match int_of_str env text with
    | Some v => Some (Some v)
    | None => None
    end
  else Some None.

(** [on_ok], the handler of the OK button of [open_image_dialog]. *)
Definition on_ok (env : environment) (self : CollageApp) (s : subject)
  (f : fields) : run ImageEntry unit :=
  match int_of_str env (tw_entry f), int_of_str env (th_entry f) with
  | Some tw, Some th =>
      if (tw <=? 0) || (th <=? 0) then
        warning "Invalid Size" "Width and height must be > 0." self
      else
        match optional_int env (mx_entry f) with
        | None => warning "Invalid Input" "Manual X must be an integer." self
        | Some manual_x =>
            match optional_int env (my_entry f) with
            | None =>
                warning "Invalid Input" "Manual Y must be an integer." self
            | Some manual_y =>
                recalc_layout env
                  (with_images self (confirmed self s tw th manual_x manual_y))
            end
        end
  | _, _ =>
      warning "Invalid Input" "Enter valid integers for target size." self
  end.






End Dialog.



(** ** src/Collage.py: scaling the collage *)

Module Scale.

Import Collage.

(** The application with other texts in its width and height fields. *)
Definition with_size (self : CollageApp) (width height : string)
  : CollageApp :=
  {| images := images self;
     collage_width_var := width;
     collage_height_var := height;
     border_var := border_var self;
     bg_color_var := bg_color_var self;
     corner_radius_var := corner_radius_var self |}.

(** The result of a method that writes to the settings: the application as
    the call leaves it, what it showed, and how it ended. *)
Record outcome : Set := Outcome {
  app_after : CollageApp;
  shown : list event;
  ended : Py.result unit
}.

(** [factor < 0] and [1 / abs(factor)] *)
Definition negative (factor : Py.float) : bool :=
  SFltb factor (S754_zero false).

Definition effective_factor (factor : Py.float) : Py.result Py.float :=
  if negative factor then Py.int_div_float 1 (SFabs factor) else Ok factor.

(** [str(int(side * factor))] *)
Definition scaled (side factor : Py.float) : Py.result string :=
  n <- Py.int_of_float (SFmul Py.prec Py.emax side factor) ;;
  Ok (PyFormat.str_of_int n).

(** [scale_collage], while no preview window is open.  [float_of_str] is
    [float(s)] on the text of a field, [None] for [ValueError]; [scale_var]
    is the text of the scale field. *)
Definition scale_collage (env : environment)
  (float_of_str : string -> option Py.float) (scale_var : string)
  (self : CollageApp) : outcome :=
  match float_of_str scale_var with
  | None =>
      Outcome self
        [ShowWarning "Invalid Scale" "Enter a valid number for scale."] (Ok tt)
  | Some factor =>
      match effective_factor factor with
      | Raise ex => Outcome self [] (Raise ex)
      | Ok factor =>
          match float_of_str (collage_width_var self),
                float_of_str (collage_height_var self) with
          | Some w, Some h =>
              match scaled w factor with
              | Raise ex => Outcome self [] (Raise ex)
              | Ok width =>
                  match scaled h factor with
                  | Raise ex =>
                      Outcome (with_size self width (collage_height_var self))
                        [] (Raise ex)
                  | Ok height =>
                      let resized := with_size self width height in
                      let laid := recalc_layout env resized in
                      Outcome (with_images resized (images_after laid))
                        (trace laid) (value laid)
                  end
              end
          | _, _ =>
              Outcome self
                [ShowWarning "Invalid Size"
                   "Collage width/height must be valid numbers."] (Ok tt)
          end
      end
  end.

End Scale.

(** A text of decimal digits that [int] reads as [v * 10^k + a] after having
    read [a], for every [a]: a number [v] of [k] digits. *)
Definition reads (s : string) (v k : Z) : Prop :=
  0 <= k
  /\ forall a, Py.scan_digits 10 s a false = Some (a * 10 ^ k + v, EmptyString).


(** A sample [float(s)]: the texts that [int] reads, as floats. *)
Definition sample_float_of_str (s : string) : option Py.float :=
  match Py.int_base 10 s with
  | Some n =>
      match Py.float_of_int n with
      | Ok f => Some f
      | Raise _ => None
      end
  | None => None
  end.


(** ** src/Older Scripts/Collage-V5.py: a manual position from the preview *)

Module PreviewV5.

Import CollageV5.

(** The three assignments of [set_manual_position]. *)
Definition pinned (e : ImageEntry) (new_x new_y : Z) : ImageEntry :=
  {| path := path e; orig_w := orig_w e; orig_h := orig_h e;
     target_w := target_w e; target_h := target_h e;
     x := x e; y := y e;
     manual_x := Some new_x; manual_y := Some new_y;
     locked := true; corner_radius := corner_radius e;
     template_tag := template_tag e |}.

Fixpoint change_nth (index : nat) (f : ImageEntry -> ImageEntry)
  (entries : list ImageEntry) : list ImageEntry :=
  match entries, index with
  | [], _ => []
  | e :: rest, O => f e :: rest
  | e :: rest, S i => e :: change_nth i f rest
  end.

(** [set_manual_position], up to the refresh of the preview with which it
    ends (and which lays the entries out again): [selected_preview_entry] is
    [None] or the entry at a place of the list, the two texts are those of
    the manual x and y fields. *)
Definition set_manual_position (env : environment) (self : CollageApp)
  (selected_preview_entry : option nat) (manual_x_entry manual_y_entry : string)
  : run ImageEntry unit :=
  match selected_preview_entry with
  | None =>
      Run (images self)
        [ShowWarning "No Image Selected"
           "Click on an image to select it first."] (Ok tt)
  | Some index =>
      match int_of_str env manual_x_entry, int_of_str env manual_y_entry with
      | Some new_x, Some new_y =>
          Run (change_nth index (fun e => pinned e new_x new_y) (images self))
            [] (Ok tt)
      | _, _ =>
          Run (images self)
            [ShowWarning "Invalid Input"
               "Enter valid integers for manual X and Y."] (Ok tt)
      end
  end.

End PreviewV5.


(** ** Entries side by side

    The entries placed one after the other in a row that starts at [(x, y)],
    the border between them, and the width the row takes. *)

Fixpoint in_a_row (border x y : Z) (entries : list Collage.ImageEntry)
  : list Collage.ImageEntry :=
  match entries with
  | [] => []
  | e :: rest =>
      Collage.set_xy e x y
      :: in_a_row border (x + (Collage.target_w e + border)) y rest
  end.

Fixpoint row_width (border : Z) (entries : list Collage.ImageEntry) : Z :=
  match entries with
  | [] => 0
  | e :: rest => Collage.target_w e + border + row_width border rest
  end.


(** ** The order of what is painted *)

(** [s] is [l] with some of its elements left out. *)
Inductive subsequence {A : Type} : list A -> list A -> Prop :=
| subsequence_nil : forall l, subsequence [] l
| subsequence_skip : forall a s l, subsequence s l -> subsequence s (a :: l)
| subsequence_take : forall a s l, subsequence s l -> subsequence (a :: s) (a :: l).

(** The paths of the entries that the events are about: those pasted and
    those reported unreadable. *)
Definition event_paths (events : list event) : list string :=
  flat_map (fun ev => match ev with
                      | Paste p _ _ _ => [p]
                      | PrintError p => [p]
                      | _ => []
                      end) events.

(** * Properties *)

(** ** The row-packing loop, for any version of the entry *)

Section RowPackingFacts.

Context {entry : Type}.
Variable skip : entry -> bool.
Variable target_w target_h : entry -> Z.
Variable assign_xy : entry -> Z -> Z -> entry.

Local Abbreviation entry_step := (layout_entry skip target_w target_h assign_xy).
Local Abbreviation loop := (layout_loop skip target_w target_h assign_xy).
Local Abbreviation overflow_step := (after_overflow target_w).
Local Abbreviation place_step := (place target_w target_h assign_xy).

Lemma after_full_row_free cw border c :
  snd (after_full_row cw border c)
  = cw - current_x (fst (after_full_row cw border c)) - border.
Proof.
  unfold after_full_row.
  destruct (cw - current_x c - border <=? 0); reflexivity.
Qed.

Lemma layout_entry_skipped cw border c e :
  skip e = true -> entry_step cw border c e = Ok (c, e).
Proof. intros Hs. unfold layout_entry. now rewrite Hs. Qed.

(** What an iteration that does not skip its entry returns. *)
Lemma layout_entry_placed cw border c e c' e' :
  skip e = false ->
  entry_step cw border c e = Ok (c', e') ->
  exists c2,
    overflow_step border (fst (after_full_row cw border c))
      (snd (after_full_row cw border c)) e = Ok c2
    /\ (c', e') = place_step border c2 e.
Proof.
  intros Hs. unfold layout_entry. rewrite Hs.
  destruct (after_full_row cw border c) as [c1 free]. cbn [fst snd].
  destruct (overflow_step border c1 free e) as [c2|ex]; cbn [Py.bind].
  - intros H. injection H as <- <-. now exists c2.
  - discriminate.
Qed.

Lemma layout_loop_length cw border entries : forall c,
  List.length (fst (loop cw border c entries)) = List.length entries.
Proof.
  induction entries as [|e rest IH]; intros c; cbn [layout_loop].
  - reflexivity.
  - destruct (entry_step cw border c e) as [[c' e']|ex]; [|reflexivity].
    specialize (IH c').
    destruct (loop cw border c' rest) as [rest' r].
    cbn [fst List.length] in *. now rewrite IH.
Qed.

(** An entry that the loop skips is, after the loop, what it was before. *)
Lemma layout_loop_skipped cw border entries : forall c i e,
  nth_error entries i = Some e ->
  skip e = true ->
  nth_error (fst (loop cw border c entries)) i = Some e.
Proof.
  induction entries as [|e0 rest IH]; intros c i e Hi Hs.
  - now destruct i.
  - cbn [layout_loop].
    destruct (entry_step cw border c e0) as [[c' e0']|ex] eqn:Hstep;
      [|exact Hi].
    specialize (IH c').
    destruct (loop cw border c' rest) as [rest' r].
    cbn [fst] in *.
    destruct i as [|i]; cbn [nth_error] in *.
    + injection Hi as ->.
      rewrite (layout_entry_skipped _ _ _ _ Hs) in Hstep.
      now injection Hstep as _ <-.
    + now apply IH.
Qed.

(** *** The cursor never leaves the quadrant below and right of the border *)

Lemma start_within border : within border (start border).
Proof. unfold within, start; cbn. lia. Qed.

Lemma new_row_within border c :
  0 <= border -> within border c -> within border (new_row border c).
Proof. unfold within, new_row; cbn. lia. Qed.

Lemma after_full_row_within cw border c :
  0 <= border -> within border c ->
  within border (fst (after_full_row cw border c)).
Proof.
  intros Hb Hc. unfold after_full_row.
  destruct (cw - current_x c - border <=? 0); cbn [fst];
    auto using new_row_within.
Qed.

Lemma after_overflow_within border c free e c2 :
  0 <= border -> within border c ->
  overflow_step border c free e = Ok c2 ->
  within border c2.
Proof.
  intros Hb Hc. unfold after_overflow.
  destruct (free <? target_w e).
  - destruct (Py.int_truediv (target_w e - free) (target_w e)) as [ratio|ex];
      cbn [Py.bind]; [|discriminate].
    intros H. injection H as <-.
    destruct (Py.float_gt ratio OVERFLOW_THRESHOLD); auto using new_row_within.
  - intros H. now injection H as <-.
Qed.

Lemma place_within border c e :
  0 <= border -> 0 < target_w e -> within border c ->
  within border (fst (place_step border c e)).
Proof. unfold within, place; cbn. lia. Qed.

Lemma layout_entry_bounds cw border c e c' e' :
  0 <= border -> 0 < target_w e -> within border c ->
  entry_step cw border c e = Ok (c', e') ->
  within border c' /\ skipped_or_placed skip assign_xy border e e'.
Proof.
  intros Hb Hw Hc Hstep. unfold skipped_or_placed.
  destruct (skip e) eqn:Hs.
  - rewrite (layout_entry_skipped _ _ _ _ Hs) in Hstep.
    injection Hstep as <- <-. now split.
  - destruct (layout_entry_placed _ _ _ _ _ _ Hs Hstep) as (c2 & Hov & Hpl).
    assert (Hc2 : within border c2).
    { exact (after_overflow_within _ _ _ _ _ Hb
               (after_full_row_within cw border c Hb Hc) Hov). }
    pose proof (place_within border c2 e Hb Hw Hc2) as Hc'.
    rewrite <- Hpl in Hc'. cbn [fst] in Hc'. split; [exact Hc'|].
    exists (current_x c2), (current_y c2).
    unfold place in Hpl. injection Hpl as _ ->.
    unfold within in Hc2. repeat split; lia.
Qed.

Lemma skipped_or_placed_kept border e e' :
  skipped_or_placed skip assign_xy border e e' -> kept_or_placed assign_xy border e e'.
Proof.
  unfold skipped_or_placed, kept_or_placed.
  destruct (skip e); [now left | now right].
Qed.

Lemma Forall2_kept border entries :
  Forall2 (kept_or_placed assign_xy border) entries entries.
Proof. induction entries; constructor; auto. now left. Qed.

Lemma layout_loop_bounds cw border entries : forall c,
  0 <= border ->
  Forall (fun e => 0 < target_w e) entries ->
  within border c ->
  Forall2 (kept_or_placed assign_xy border) entries (fst (loop cw border c entries))
  /\ (snd (loop cw border c entries) = None ->
      Forall2 (skipped_or_placed skip assign_xy border) entries
        (fst (loop cw border c entries))).
Proof.
  induction entries as [|e rest IH]; intros c Hb Hall Hc.
  - cbn. split; constructor.
  - inversion Hall as [|? ? Hw Hrest]; subst.
    cbn [layout_loop].
    destruct (entry_step cw border c e) as [[c' e']|ex] eqn:Hstep.
    + destruct (layout_entry_bounds _ _ _ _ _ _ Hb Hw Hc Hstep) as [Hc' He].
      specialize (IH c' Hb Hrest Hc').
      destruct (loop cw border c' rest) as [rest' r].
      cbn [fst snd] in *. destruct IH as [IH1 IH2]. split.
      * constructor; auto using skipped_or_placed_kept.
      * intros ->. constructor; auto.
    + cbn [fst snd]. split; [apply Forall2_kept | discriminate].
Qed.

(** After a loop that ran to its end, an entry is what it was when the skip
    test holds for it, and has been assigned a position otherwise. *)
Lemma layout_loop_assigned cw border entries : forall c,
  snd (loop cw border c entries) = None ->
  Forall2 (fun e e' => if skip e then e' = e
                       else exists px py, e' = assign_xy e px py)
    entries (fst (loop cw border c entries)).
Proof.
  induction entries as [|e rest IH]; intros c; cbn [layout_loop].
  - constructor.
  - destruct (entry_step cw border c e) as [[c' e']|ex] eqn:Hstep;
      [|discriminate].
    specialize (IH c').
    destruct (loop cw border c' rest) as [rest' r]. cbn [fst snd] in *.
    intros ->. constructor; [|now apply IH].
    destruct (skip e) eqn:Hs.
    + rewrite (layout_entry_skipped _ _ _ _ Hs) in Hstep.
      now injection Hstep as _ <-.
    + destruct (layout_entry_placed _ _ _ _ _ _ Hs Hstep) as (c2 & _ & Hpl).
      unfold place in Hpl. injection Hpl as _ ->. now eauto.
Qed.

(** The second test of the loop body, when the entry is wider than the free
    space and the ratio is a float: the entry is placed at the start of a new
    row when the ratio exceeds the threshold, at the cursor otherwise. *)
Lemma layout_entry_overflow cw border c e ratio :
  skip e = false ->
  let c1 := fst (after_full_row cw border c) in
  let free_space := cw - current_x c1 - border in
  free_space < target_w e ->
  Py.int_truediv (target_w e - free_space) (target_w e) = Ok ratio ->
  entry_step cw border c e
  = Ok (place_step border
          (if Py.float_gt ratio OVERFLOW_THRESHOLD then new_row border c1 else c1)
          e).
Proof.
  intros Hs c1 free_space Hlt Hratio.
  unfold layout_entry. rewrite Hs.
  pose proof (after_full_row_free cw border c) as Hfree.
  fold c1 in Hfree. fold free_space in Hfree.
  destruct (after_full_row cw border c) as [c1' free'] eqn:Hrow.
  cbn [fst snd] in *. subst c1 free'.
  unfold after_overflow.
  apply Z.ltb_lt in Hlt. rewrite Hlt, Hratio. reflexivity.
Qed.

(** When the entry fits in the free space it is placed at the cursor. *)
Lemma layout_entry_fits cw border c e :
  skip e = false ->
  let c1 := fst (after_full_row cw border c) in
  target_w e <= cw - current_x c1 - border ->
  entry_step cw border c e = Ok (place_step border c1 e).
Proof.
  intros Hs c1 Hle.
  unfold layout_entry. rewrite Hs.
  pose proof (after_full_row_free cw border c) as Hfree. fold c1 in Hfree.
  destruct (after_full_row cw border c) as [c1' free'] eqn:Hrow.
  cbn [fst snd] in *. subst c1 free'.
  unfold after_overflow.
  apply Z.ltb_ge in Hle. rewrite Hle. reflexivity.
Qed.

End RowPackingFacts.

(** ** The ratio test *)

Lemma Zrange_complete lo n z :
  lo <= z < lo + Z.of_nat n -> In z (Zrange lo n).
Proof.
  intros H. unfold Zrange. apply in_map_iff.
  exists (Z.to_nat (z - lo)). split; [lia|]. apply in_seq. lia.
Qed.

(** For target widths up to 128 and overflows up to 256, the sizes of the
    worked examples among them, the float test of the loop is the integer
    test [2 * overflow > target_w]. *)
Lemma ratio_test_small target_w overflow :
  1 <= target_w <= 128 -> 0 <= overflow <= 256 ->
  ratio_test_agrees target_w overflow = true.
Proof.
  intros Hw Ho.
  assert (H : forallb (fun w => forallb (ratio_test_agrees w) (Zrange 0 257))
                (Zrange 1 128) = true) by (vm_compute; reflexivity).
  rewrite forallb_forall in H.
  assert (Hin : In target_w (Zrange 1 128)) by (apply Zrange_complete; lia).
  specialize (H _ Hin). rewrite forallb_forall in H.
  apply H, Zrange_complete. lia.
Qed.

(** ** The layout of Collage.py *)

(** C1 as the specification states it: three tiles of 50 x 20 on a canvas
    of width 100 with border 10 would be placed at (10,10), (60,10) and
    (10,40).  [recalc_layout] does not place them so. *)
Lemma C1_stated_positions_refuted :
  map (fun e => (Collage.x e, Collage.y e))
      (images_after (Collage.recalc_layout Sample.env Sample.three_tiles))
  <> [(Some 10, Some 10); (Some 60, Some 10); (Some 10, Some 40)].
Proof. intros H. vm_compute in H. discriminate H. Qed.

(** C1, amended: on a canvas of width 100 with border 10, [recalc_layout]
    places three tiles of 50 x 20 at (10,10), (10,40) and (10,70) and returns
    normally.  After the first tile the cursor is at x = 10 + 50 + 10 = 70, so
    the free space left for the second is 20, its overflow ratio is
    30/50 = 0.6 > 0.5 and it starts a new row; the third does the same. *)
Theorem C1_row_wrap_example :
  let run := Collage.recalc_layout Sample.env Sample.three_tiles in
  map (fun e => (Collage.x e, Collage.y e)) (images_after run)
  = [(Some 10, Some 10); (Some 10, Some 40); (Some 10, Some 70)]
  /\ value run = Ok tt
  /\ (exists e', Collage.layout_entry 100 10 (start 10)
                   (Sample.tile "a.png" 50 20) = Ok (Cursor 70 10 20, e'))
  /\ (exists ratio, Py.int_truediv (50 - (100 - 70 - 10)) 50 = Ok ratio
                    /\ Py.float_gt ratio OVERFLOW_THRESHOLD = true).
Proof.
  repeat split.
  - eexists. vm_compute. reflexivity.
  - eexists. split; vm_compute; reflexivity.
Qed.

(** C2: in [recalc_layout], of Collage.py and of Collage-V5.py alike, an entry
    that the loop does not skip and whose [target_w] exceeds the free space
    [collage_width - current_x - border] at the cursor is placed at the start
    of a new row exactly when [(target_w - free_space) / target_w > 0.5], and
    at the cursor otherwise, whatever lies beyond the right border; the cursor
    is the one left by the first test of the loop body, and the ratio is the
    float that the division returns. *)
Theorem C2_fractional_overflow_tie_break :
  (forall cw border c (e : Collage.ImageEntry) ratio,
      Collage.has_manual_position e = false ->
      let c1 := fst (after_full_row cw border c) in
      let free_space := cw - current_x c1 - border in
      free_space < Collage.target_w e ->
      Py.int_truediv (Collage.target_w e - free_space) (Collage.target_w e)
      = Ok ratio ->
      let wraps := Py.float_gt ratio OVERFLOW_THRESHOLD in
      let px := if wraps then border else current_x c1 in
      let py := if wraps
                then current_y c1 + (current_row_height c1 + border)
                else current_y c1 in
      exists c', Collage.layout_entry cw border c e
                 = Ok (c', Collage.set_xy e px py))
  /\
  (forall cw border c (e : CollageV5.ImageEntry) ratio,
      CollageV5.locked e = false ->
      let c1 := fst (after_full_row cw border c) in
      let free_space := cw - current_x c1 - border in
      free_space < CollageV5.target_w e ->
      Py.int_truediv (CollageV5.target_w e - free_space) (CollageV5.target_w e)
      = Ok ratio ->
      let wraps := Py.float_gt ratio OVERFLOW_THRESHOLD in
      let px := if wraps then border else current_x c1 in
      let py := if wraps
                then current_y c1 + (current_row_height c1 + border)
                else current_y c1 in
      exists c', CollageV5.layout_entry cw border c e
                 = Ok (c', CollageV5.set_xy e px py)).
Proof.
  split; intros cw border c e ratio Hs c1 free_space Hlt Hratio wraps px py.
  - unfold Collage.layout_entry.
    rewrite (layout_entry_overflow _ _ _ _ cw border c e ratio Hs Hlt Hratio).
    fold c1. fold wraps. subst px py. unfold place.
    destruct wraps; eexists; reflexivity.
  - unfold CollageV5.layout_entry.
    rewrite (layout_entry_overflow _ _ _ _ cw border c e ratio Hs Hlt Hratio).
    fold c1. fold wraps. subst px py. unfold place.
    destruct wraps; eexists; reflexivity.
Qed.

(** C2 at two tiles of width 50 with 20 and then 30 pixels free on a canvas
    of width 100 with border 10: ratio 0.6, a new row at (10,40); ratio 0.4,
    placed at the cursor (60,10), over the right border.  The same for the
    older version. *)
Lemma C2_fractional_overflow_tie_break_witness :
  (exists c', Collage.layout_entry 100 10 (Cursor 70 10 20)
                (Sample.tile "b.png" 50 20)
              = Ok (c', Collage.set_xy (Sample.tile "b.png" 50 20) 10 40))
  /\ (exists c', Collage.layout_entry 100 10 (Cursor 60 10 20)
                   (Sample.tile "b.png" 50 20)
                 = Ok (c', Collage.set_xy (Sample.tile "b.png" 50 20) 60 10))
  /\ (exists c', CollageV5.layout_entry 100 10 (Cursor 70 10 20)
                   (Sample.tile_v5 "b.png" 50 20 false)
                 = Ok (c', CollageV5.set_xy (Sample.tile_v5 "b.png" 50 20 false)
                             10 40)).
Proof.
  destruct C2_fractional_overflow_tie_break as [latest older].
  split; [|split].
  - apply (latest 100 10 (Cursor 70 10 20) (Sample.tile "b.png" 50 20)
             (Py.literal 5404319552844595 (-53))).
    + reflexivity.
    + vm_compute. reflexivity.
    + vm_compute. reflexivity.
  - apply (latest 100 10 (Cursor 60 10 20) (Sample.tile "b.png" 50 20)
             (Py.literal 3602879701896397 (-53))).
    + reflexivity.
    + vm_compute. reflexivity.
    + vm_compute. reflexivity.
  - apply (older 100 10 (Cursor 70 10 20) (Sample.tile_v5 "b.png" 50 20 false)
             (Py.literal 5404319552844595 (-53))).
    + reflexivity.
    + vm_compute. reflexivity.
    + vm_compute. reflexivity.
Defined.

(** A run of [recalc_layout] of Collage.py whose two settings are numbers is
    a run of the loop from the cursor [(border, border)]. *)
Lemma recalc_layout_parsed env app cw border :
  int_of_str env (Collage.collage_width_var app) = Some cw ->
  int_of_str env (Collage.border_var app) = Some border ->
  images_after (Collage.recalc_layout env app)
  = fst (Collage.layout cw border (Collage.images app))
  /\ (value (Collage.recalc_layout env app) = Ok tt
      <-> snd (Collage.layout cw border (Collage.images app)) = None).
Proof.
  intros Hw Hb. unfold Collage.recalc_layout. rewrite Hw, Hb.
  destruct (Collage.layout cw border (Collage.images app)) as [placed [ex|]];
    cbn; split; try reflexivity; split; congruence.
Qed.

(** C9: when the border is not negative and every target width is positive,
    a run of [recalc_layout] leaves each entry as it was or assigns it a
    position with [x >= border] and [y >= border]; the cursor starts at
    [(border, border)]; and when the run returns normally the entries left as
    they were are those with a manual position, every other one having been
    assigned such a position. *)
Theorem C9_position_bounds env app cw border :
  int_of_str env (Collage.collage_width_var app) = Some cw ->
  int_of_str env (Collage.border_var app) = Some border ->
  0 <= border ->
  Forall (fun e => 0 < Collage.target_w e) (Collage.images app) ->
  let run := Collage.recalc_layout env app in
  (current_x (start border), current_y (start border)) = (border, border)
  /\ Forall2 (kept_or_placed Collage.set_xy border)
       (Collage.images app) (images_after run)
  /\ (value run = Ok tt ->
      Forall2 (skipped_or_placed Collage.has_manual_position Collage.set_xy border)
        (Collage.images app) (images_after run)).
Proof.
  intros Hw Hb Hpos Hall run.
  destruct (recalc_layout_parsed env app cw border Hw Hb) as [Himg Hval].
  fold run in Himg, Hval.
  destruct (layout_loop_bounds Collage.has_manual_position Collage.target_w
              Collage.target_h Collage.set_xy cw border (Collage.images app)
              (start border) Hpos Hall (start_within border)) as [Hkept Hdone].
  split; [reflexivity|]. rewrite Himg. split.
  - exact Hkept.
  - intros Hok. apply Hdone. now apply Hval.
Qed.

(** C9 on the three tiles of 50 x 20, canvas width 100, border 10. *)
Lemma C9_position_bounds_witness :
  let run := Collage.recalc_layout Sample.env Sample.three_tiles in
  (current_x (start 10), current_y (start 10)) = (10, 10)
  /\ Forall2 (kept_or_placed Collage.set_xy 10)
       (Collage.images Sample.three_tiles) (images_after run)
  /\ (value run = Ok tt ->
      Forall2 (skipped_or_placed Collage.has_manual_position Collage.set_xy 10)
        (Collage.images Sample.three_tiles) (images_after run)).
Proof.
  apply (C9_position_bounds Sample.env Sample.three_tiles 100 10).
  - reflexivity.
  - reflexivity.
  - lia.
  - repeat constructor.
Defined.

(** ** The layout of Collage-V5.py *)

Lemma recalc_layout_v5_keeps_locked env app i e :
  nth_error (CollageV5.images app) i = Some e ->
  CollageV5.locked e = true ->
  nth_error (images_after (CollageV5.recalc_layout env app)) i = Some e.
Proof.
  intros Hi Hl. unfold CollageV5.recalc_layout.
  destruct (int_of_str env (CollageV5.collage_width_var app)) as [cw|];
    [|exact Hi].
  destruct (int_of_str env (CollageV5.border_var app)) as [border|];
    [|exact Hi].
  pose proof (layout_loop_skipped CollageV5.locked CollageV5.target_w
                CollageV5.target_h CollageV5.set_xy cw border
                (CollageV5.images app) (start border) i e Hi Hl) as H.
  unfold CollageV5.layout, layout.
  destruct (layout_loop _ _ _ _ cw border (start border) (CollageV5.images app))
    as [placed raised].
  exact H.
Qed.

Lemma recalc_many_keeps_locked env calls : forall entries i e,
  nth_error entries i = Some e ->
  CollageV5.locked e = true ->
  nth_error (recalc_many env calls entries) i = Some e.
Proof.
  induction calls as [|[width border] later IH]; intros entries i e Hi Hl.
  - exact Hi.
  - cbn [recalc_many]. apply IH; [|exact Hl].
    now apply recalc_layout_v5_keeps_locked.
Qed.

(** C3: an entry of Collage-V5.py with [locked = True] is, after a call of
    [recalc_layout] and after any number of calls under any settings, the
    entry it was before, at the same place of the list and with the same
    [x], [y], [manual_x] and [manual_y], whatever the other entries are; and
    the iteration of the loop that meets it leaves the cursor as it found
    it. *)
Theorem C3_locked_tiles_frozen env app calls i e cw border c :
  nth_error (CollageV5.images app) i = Some e ->
  CollageV5.locked e = true ->
  nth_error (images_after (CollageV5.recalc_layout env app)) i = Some e
  /\ nth_error (recalc_many env calls (CollageV5.images app)) i = Some e
  /\ CollageV5.layout_entry cw border c e = Ok (c, e).
Proof.
  intros Hi Hl. split; [|split].
  - now apply recalc_layout_v5_keeps_locked.
  - now apply recalc_many_keeps_locked.
  - now apply layout_entry_skipped.
Qed.

(** C3 on a locked tile between two unlocked ones, laid out three times under
    three settings. *)
Lemma C3_locked_tiles_frozen_witness :
  let locked_tile := Sample.tile_v5 "b.png" 50 20 true in
  let app := Sample.app_v5 "100" "10"
               [Sample.tile_v5 "a.png" 50 20 false; locked_tile;
                Sample.tile_v5 "c.png" 70 30 false] in
  nth_error (images_after (CollageV5.recalc_layout Sample.env app)) 1
  = Some locked_tile
  /\ nth_error (recalc_many Sample.env
                  [("100"%string, "10"%string); ("300"%string, "0"%string);
                   ("wide"%string, "5"%string)]
                  (CollageV5.images app)) 1
     = Some locked_tile
  /\ CollageV5.layout_entry 100 10 (Cursor 70 10 20) locked_tile
     = Ok (Cursor 70 10 20, locked_tile).
Proof.
  intros locked_tile app.
  apply (C3_locked_tiles_frozen Sample.env app).
  - reflexivity.
  - reflexivity.
Defined.

(** ** Settings that are not numbers *)

(** C7 as the specification states it has [recalc_layout] report a
    configuration error when the width is not a number.  With the width
    field reading [wide] the run shows nothing, prints nothing and raises
    nothing. *)
Lemma C7_no_error_reported :
  let app := Sample.app "wide" "100" "10" [Sample.tile "a.png" 50 20] in
  int_of_str Sample.env (Collage.collage_width_var app) = None
  /\ ~ reports_error (Collage.recalc_layout Sample.env app).
Proof.
  split; [reflexivity|].
  intros [(t & m & H)|[(p & H)|(ex & H)]]; cbn in H;
    solve [contradiction | discriminate].
Qed.

(** C7, amended: when the text of the width field or of the border field is
    not a number, [recalc_layout] changes no entry, and it returns as it does
    after a layout, showing and printing nothing. *)
Theorem C7_layout_configuration_error env app :
  int_of_str env (Collage.collage_width_var app) = None
  \/ int_of_str env (Collage.border_var app) = None ->
  Collage.recalc_layout env app = Run (Collage.images app) [] (Ok tt).
Proof.
  unfold Collage.recalc_layout. intros [H|H]; rewrite H.
  - reflexivity.
  - now destruct (int_of_str env (Collage.collage_width_var app)).
Qed.

(** C7 at a border field reading [1O] (with the letter O). *)
Lemma C7_layout_configuration_error_witness :
  let app := Sample.app "100" "100" "1O" [Sample.tile "a.png" 50 20] in
  Collage.recalc_layout Sample.env app = Run (Collage.images app) [] (Ok tt).
Proof.
  intros app. apply (C7_layout_configuration_error Sample.env app).
  right. reflexivity.
Defined.

(** ** The position an entry is shown at *)

(** C8 as the specification states it: the effective position is the manual
    position when there is one and the automatic position otherwise, and is
    [None] only before the first layout.  An entry of Collage.py given a
    manual x alone is shown, after a layout, at (5,10), which is neither its
    manual position (5,None) nor its automatic one (10,10); and an entry of
    Collage-V5.py created locked has no position after a layout. *)
Lemma C8_stated_invariant_refuted :
  map (fun e => (Collage.get_display_pos e,
                 (Collage.manual_x e, Collage.manual_y e),
                 (Collage.x e, Collage.y e)))
      (images_after
         (Collage.recalc_layout Sample.env
            (Sample.app "100" "100" "10"
               [Sample.with_manual (Some 5) None (Sample.tile "a.png" 50 20)])))
  = [((Some 5, Some 10), (Some 5, None), (Some 10, Some 10))]
  /\ map CollageV5.get_display_pos
       (images_after
          (CollageV5.recalc_layout Sample.env
             (Sample.app_v5 "100" "10" [Sample.tile_v5 "a.png" 50 20 true])))
     = [(None, None)].
Proof. split; reflexivity. Qed.

Lemma Forall2_Forall_right {A B : Type} (R : A -> B -> Prop) (P : B -> Prop)
  (l : list A) (l' : list B) :
  (forall a b, R a b -> P b) -> Forall2 R l l' -> Forall P l'.
Proof. intros HRP H. induction H; constructor; eauto. Qed.

Lemma display_pos_of_assigned (e e' : Collage.ImageEntry) :
  (if Collage.has_manual_position e then e' = e
   else exists px py, e' = Collage.set_xy e px py) ->
  exists px py, Collage.get_display_pos e' = (Some px, Some py).
Proof.
  unfold Collage.has_manual_position, Collage.get_display_pos.
  destruct (Collage.manual_x e) as [mx|] eqn:Hx;
    destruct (Collage.manual_y e) as [my|] eqn:Hy.
  - intros ->. rewrite Hx, Hy. cbn. eauto.
  - intros (px & py & ->). cbn. rewrite Hx, Hy. cbn. eauto.
  - intros (px & py & ->). cbn. rewrite Hx, Hy. cbn. eauto.
  - intros (px & py & ->). cbn. rewrite Hx, Hy. cbn. eauto.
Qed.

(** C8, amended: each coordinate of the effective position of an entry is
    its manual coordinate when that is not [None] and its automatic
    coordinate otherwise, so the effective position is the manual position
    when both manual coordinates are set and the automatic position when
    neither is; and after a run of [recalc_layout] of Collage.py that read
    its two settings and returned normally, no entry has [None] as a
    coordinate of its effective position. *)
Theorem C8_effective_position env app cw border :
  int_of_str env (Collage.collage_width_var app) = Some cw ->
  int_of_str env (Collage.border_var app) = Some border ->
  value (Collage.recalc_layout env app) = Ok tt ->
  (forall e,
      (forall mx, Collage.manual_x e = Some mx ->
                  fst (Collage.get_display_pos e) = Some mx)
      /\ (Collage.manual_x e = None ->
          fst (Collage.get_display_pos e) = Collage.x e)
      /\ (forall my, Collage.manual_y e = Some my ->
                     snd (Collage.get_display_pos e) = Some my)
      /\ (Collage.manual_y e = None ->
          snd (Collage.get_display_pos e) = Collage.y e)
      /\ (forall mx my, Collage.manual_x e = Some mx ->
                        Collage.manual_y e = Some my ->
                        Collage.get_display_pos e = (Some mx, Some my))
      /\ (Collage.manual_x e = None -> Collage.manual_y e = None ->
          Collage.get_display_pos e = (Collage.x e, Collage.y e)))
  /\ Forall (fun e' => exists px py,
                 Collage.get_display_pos e' = (Some px, Some py))
       (images_after (Collage.recalc_layout env app)).
Proof.
  intros Hw Hb Hok. split.
  - intros e. unfold Collage.get_display_pos.
    repeat split; intros; cbn [fst snd];
      repeat match goal with H : _ = _ |- _ => rewrite H end; reflexivity.
  - destruct (recalc_layout_parsed env app cw border Hw Hb) as [Himg Hval].
    rewrite Himg. apply Hval in Hok.
    pose proof (layout_loop_assigned Collage.has_manual_position
                  Collage.target_w Collage.target_h Collage.set_xy cw border
                  (Collage.images app) (start border) Hok) as Hall.
    exact (Forall2_Forall_right _ _ _ _ display_pos_of_assigned Hall).
Qed.

(** C8 on three entries: one without a manual position, one with a manual x
    alone, one with both. *)
Lemma C8_effective_position_witness :
  Forall (fun e' => exists px py,
              Collage.get_display_pos e' = (Some px, Some py))
    (images_after
       (Collage.recalc_layout Sample.env
          (Sample.app "100" "100" "10"
             [Sample.tile "a.png" 50 20;
              Sample.with_manual (Some 5) None (Sample.tile "b.png" 50 20);
              Sample.with_manual (Some 7) (Some 9) (Sample.tile "c.png" 50 20)]))).
Proof.
  apply (C8_effective_position Sample.env
           (Sample.app "100" "100" "10"
              [Sample.tile "a.png" 50 20;
               Sample.with_manual (Some 5) None (Sample.tile "b.png" 50 20);
               Sample.with_manual (Some 7) (Some 9) (Sample.tile "c.png" 50 20)])
           100 10).
  - reflexivity.
  - reflexivity.
  - reflexivity.
Defined.

(** ** The compositor *)

Section Compositor.

Variable env : environment.

Local Abbreviation entry_paint := (Collage.composite_entry env).
Local Abbreviation paint_loop := (Collage.composite_loop env).

(** An entry whose bitmap cannot be opened is not resized. *)
Lemma unopened_not_resized e :
  image_open env (Collage.path e) = None -> Collage.resized env e = false.
Proof. intros H. unfold Collage.resized. now rewrite H. Qed.

(** An entry that is not resized leaves a diagnostic and nothing else. *)
Lemma composite_entry_not_resized safe_area corner_radius e :
  Collage.resized env e = false ->
  entry_paint safe_area corner_radius e = Ok [PrintError (Collage.path e)].
Proof. intros H. unfold Collage.composite_entry. now rewrite H. Qed.

(** The loop over a list in two parts, when the first part raises nothing. *)
Lemma composite_loop_app safe_area corner_radius before after shown :
  paint_loop safe_area corner_radius before = (shown, None) ->
  paint_loop safe_area corner_radius (before ++ after)
  = (shown ++ fst (paint_loop safe_area corner_radius after),
     snd (paint_loop safe_area corner_radius after)).
Proof.
  revert shown.
  induction before as [|e rest IH]; intros shown; cbn [Collage.composite_loop app].
  - intros H. injection H as <-.
    now destruct (paint_loop safe_area corner_radius after).
  - destruct (entry_paint safe_area corner_radius e) as [painted|ex];
      [|discriminate].
    destruct (paint_loop safe_area corner_radius rest) as [later raised] eqn:Hrest.
    intros H. injection H as <- ->.
    rewrite (IH later eq_refl). cbn [fst snd]. now rewrite app_assoc.
Qed.

Lemma composite_loop_cons safe_area corner_radius e after painted :
  entry_paint safe_area corner_radius e = Ok painted ->
  paint_loop safe_area corner_radius (e :: after)
  = (painted ++ fst (paint_loop safe_area corner_radius after),
     snd (paint_loop safe_area corner_radius after)).
Proof.
  intros H. cbn [Collage.composite_loop]. rewrite H.
  now destruct (paint_loop safe_area corner_radius after).
Qed.

(** [build_collage] when its four settings are numbers, the canvas is created
    and the layout returns normally. *)
Lemma build_collage_composited app cw ch border corner_radius :
  int_of_str env (Collage.collage_width_var app) = Some cw ->
  int_of_str env (Collage.collage_height_var app) = Some ch ->
  int_of_str env (Collage.border_var app) = Some border ->
  int_of_str env (Collage.corner_radius_var app) = Some corner_radius ->
  image_new env cw ch = Ok tt ->
  value (Collage.recalc_layout env app) = Ok tt ->
  let laid := images_after (Collage.recalc_layout env app) in
  let safe_area := (border, border, cw - border, ch - border) in
  Collage.build_collage env app
  = Run laid
      (NewImage cw ch (Collage.parse_hex_color (Collage.bg_color_var app))
       :: fst (paint_loop safe_area corner_radius laid))
      match snd (paint_loop safe_area corner_radius laid) with
      | None => Ok (Some (cw, ch))
      | Some ex => Raise ex
      end.
Proof.
  intros Hw Hh Hb Hr Hnew Hlaid laid safe_area.
  unfold Collage.build_collage. rewrite Hw, Hh, Hb, Hr, Hnew, Hlaid.
  fold laid. fold safe_area.
  now destruct (paint_loop safe_area corner_radius laid).
Qed.

End Compositor.

(** C5: [build_collage] with a width, height, border or corner radius that is
    not a number shows the warning and returns [None], with no image created,
    no entry laid out and nothing painted; and, the settings being numbers,
    an entry whose bitmap cannot be opened leaves one diagnostic line and no
    paint, after which the loop goes on with the entries that follow, in the
    image that [build_collage] returns. *)
Theorem C5_compositor_failure_semantics env app :
  (int_of_str env (Collage.collage_width_var app) = None
   \/ int_of_str env (Collage.collage_height_var app) = None
   \/ int_of_str env (Collage.border_var app) = None
   \/ int_of_str env (Collage.corner_radius_var app) = None ->
   Collage.build_collage env app
   = Run (Collage.images app) [Collage.invalid_settings] (Ok None))
  /\
  (forall cw ch border corner_radius before e after shown,
      int_of_str env (Collage.collage_width_var app) = Some cw ->
      int_of_str env (Collage.collage_height_var app) = Some ch ->
      int_of_str env (Collage.border_var app) = Some border ->
      int_of_str env (Collage.corner_radius_var app) = Some corner_radius ->
      image_new env cw ch = Ok tt ->
      value (Collage.recalc_layout env app) = Ok tt ->
      images_after (Collage.recalc_layout env app) = before ++ e :: after ->
      image_open env (Collage.path e) = None ->
      let safe_area := (border, border, cw - border, ch - border) in
      Collage.composite_loop env safe_area corner_radius before = (shown, None) ->
      let rest := Collage.composite_loop env safe_area corner_radius after in
      Collage.composite_entry env safe_area corner_radius e
      = Ok [PrintError (Collage.path e)]
      /\ Collage.build_collage env app
         = Run (before ++ e :: after)
             (NewImage cw ch (Collage.parse_hex_color (Collage.bg_color_var app))
              :: shown ++ PrintError (Collage.path e) :: fst rest)
             match snd rest with
             | None => Ok (Some (cw, ch))
             | Some ex => Raise ex
             end).
Proof.
  split.
  - unfold Collage.build_collage.
    intros [H|[H|[H|H]]]; rewrite H;
      repeat match goal with
             | |- context [match int_of_str env ?s with _ => _ end] =>
                 destruct (int_of_str env s)
             end; reflexivity.
  - intros cw ch border corner_radius before e after shown
      Hw Hh Hb Hr Hnew Hlaid Himg Hopen safe_area Hbefore rest.
    pose proof (composite_entry_not_resized env safe_area corner_radius e
                  (unopened_not_resized env e Hopen)) as Hentry.
    split; [exact Hentry|].
    rewrite (build_collage_composited env app cw ch border corner_radius
               Hw Hh Hb Hr Hnew Hlaid).
    rewrite Himg. fold safe_area.
    rewrite (composite_loop_app env safe_area corner_radius before (e :: after)
               shown Hbefore).
    rewrite (composite_loop_cons env safe_area corner_radius e after _ Hentry).
    reflexivity.
Qed.

(** C5 on a canvas whose corner radius reads [2.5], and on three files of
    which the second is unreadable: the first and the third are pasted, the
    second leaves its diagnostic between them. *)
Lemma C5_compositor_failure_semantics_witness :
  Collage.build_collage Sample.env Sample.fractional_radius
  = Run (Collage.images Sample.fractional_radius)
      [Collage.invalid_settings] (Ok None)
  /\ Collage.build_collage Sample.env Sample.one_unreadable
     = Run [Collage.set_xy (Sample.tile "a.png" 50 20) 10 10;
            Collage.set_xy (Sample.tile "missing.png" 50 20) 10 40;
            Collage.set_xy (Sample.tile "c.png" 50 20) 10 70]
         [NewImage 100 100 (0, 0, 0, 255);
          Paste "a.png" (0, 0, 50, 20) (10, 10, 60, 30) None;
          PrintError "missing.png";
          Paste "c.png" (0, 0, 50, 20) (10, 70, 60, 90) None]
         (Ok (Some (100, 100))).
Proof.
  split.
  - apply (proj1 (C5_compositor_failure_semantics
                    Sample.env Sample.fractional_radius)).
    right. right. right. reflexivity.
  - apply (proj2 (C5_compositor_failure_semantics
                    Sample.env Sample.one_unreadable)
             100 100 10 0
             [Collage.set_xy (Sample.tile "a.png" 50 20) 10 10]
             (Collage.set_xy (Sample.tile "missing.png" 50 20) 10 40)
             [Collage.set_xy (Sample.tile "c.png" 50 20) 10 70]
             [Paste "a.png" (0, 0, 50, 20) (10, 10, 60, 30) None]);
      reflexivity.
Defined.

(** C6: for an entry with an effective position, when the rectangle of its
    bitmap and the safe area (the canvas inset by the border) do not overlap,
    the iteration of [build_collage] for that entry raises nothing and pastes
    nothing; when they overlap and the bitmap was resized, it pastes once: the
    part of the resized bitmap, and of its mask when the corner radius is
    positive, that lies over the overlap, at the overlap.  That part lies
    within the resized bitmap and the overlap within the safe area. *)
Theorem C6_safe_area_clipping env cw ch border corner_radius e px py :
  Collage.get_display_pos e = (Some px, Some py) ->
  let safe_area := (border, border, cw - border, ch - border) in
  let i0 := Z.max px border in
  let i1 := Z.max py border in
  let i2 := Z.min (px + Collage.target_w e) (cw - border) in
  let i3 := Z.min (py + Collage.target_h e) (ch - border) in
  Collage.intersection
    (px, py, px + Collage.target_w e, py + Collage.target_h e) safe_area
  = (i0, i1, i2, i3)
  /\ (i2 <= i0 \/ i3 <= i1 ->
      exists shown,
        Collage.composite_entry env safe_area corner_radius e = Ok shown
        /\ forall ev, In ev shown -> is_paste ev = false)
  /\ (i0 < i2 -> i1 < i3 -> Collage.resized env e = true ->
      Collage.composite_entry env safe_area corner_radius e
      = Ok [Paste (Collage.path e)
              (i0 - px, i1 - py, i2 - px, i3 - py)
              (i0, i1, i2, i3)
              (if 0 <? corner_radius then Some corner_radius else None)]
      /\ (0 <= i0 - px /\ i2 - px <= Collage.target_w e)
      /\ (0 <= i1 - py /\ i3 - py <= Collage.target_h e)
      /\ (border <= i0 /\ i2 <= cw - border)
      /\ (border <= i1 /\ i3 <= ch - border)).
Proof.
  intros Hpos safe_area i0 i1 i2 i3.
  unfold Collage.get_display_pos in Hpos. injection Hpos as Hx Hy.
  split; [reflexivity|]. split.
  - intros Hempty. unfold Collage.composite_entry.
    destruct (Collage.resized env e).
    + rewrite Hx, Hy. cbn [Collage.intersection safe_area].
      fold i0 i1 i2 i3.
      replace ((i0 <? i2) && (i1 <? i3)) with false.
      * exists []. split; [reflexivity|]. intros ev [].
      * symmetry. apply andb_false_iff.
        destruct Hempty; [left|right]; apply Z.ltb_ge; assumption.
    + eexists. split; [reflexivity|].
      intros ev [<-|[]]. reflexivity.
  - intros H02 H13 Hres. split.
    + unfold Collage.composite_entry. rewrite Hres, Hx, Hy.
      cbn [Collage.intersection safe_area]. fold i0 i1 i2 i3.
      apply Z.ltb_lt in H02, H13. rewrite H02, H13. cbn [andb].
      do 3 f_equal. f_equal; [f_equal|]; lia.
    + subst i0 i1 i2 i3. lia.
Qed.

(** C6 on a canvas of 100 x 100 with border 10: a tile of 50 x 20 at
    (-1000,-1000) is not painted; a tile of 50 x 20 at (60,10), which reaches
    20 pixels past the safe area, has its left 30 columns pasted at
    (60,10)-(90,30). *)
Lemma C6_safe_area_clipping_witness :
  let far := Sample.with_manual (Some (-1000)) (Some (-1000))
               (Sample.tile "a.png" 50 20) in
  let edge := Sample.with_manual (Some 60) (Some 10)
                (Sample.tile "b.png" 50 20) in
  (exists shown,
      Collage.composite_entry Sample.env (10, 10, 100 - 10, 100 - 10) 0 far
      = Ok shown
      /\ forall ev, In ev shown -> is_paste ev = false)
  /\ Collage.composite_entry Sample.env (10, 10, 100 - 10, 100 - 10) 8 edge
     = Ok [Paste "b.png" (0, 0, 30, 20) (60, 10, 90, 30) (Some 8)].
Proof.
  intros far edge. split.
  - destruct (C6_safe_area_clipping Sample.env 100 100 10 0 far (-1000) (-1000)
                eq_refl) as (_ & Hempty & _).
    apply Hempty. left. vm_compute. discriminate.
  - destruct (C6_safe_area_clipping Sample.env 100 100 10 8 edge 60 10
                eq_refl) as (_ & _ & Hover).
    apply Hover; reflexivity.
Defined.

(** ** Background colors *)

Lemma all_ascii_complete (a : ascii) : In a all_ascii.
Proof.
  unfold all_ascii. rewrite <- (ascii_nat_embedding a).
  apply in_map, in_seq. pose proof (nat_ascii_bounded a). lia.
Qed.

Lemma forall_ascii (P : ascii -> bool) :
  forallb P all_ascii = true -> forall a, P a = true.
Proof.
  intros H a. rewrite forallb_forall in H. apply H, all_ascii_complete.
Qed.

Lemma forall_ascii_pairs (P : ascii -> ascii -> bool) :
  forallb (fun a => forallb (P a) all_ascii) all_ascii = true ->
  forall a b, P a b = true.
Proof.
  intros H a b.
  pose proof (forall_ascii _ H a) as Ha. cbv beta in Ha.
  exact (forall_ascii _ Ha b).
Qed.

Lemma two_bounded_all a b : two_bounded a b = true.
Proof. revert a b. apply forall_ascii_pairs. vm_compute. reflexivity. Qed.

Lemma two_hex_valued_all a b : two_hex_valued a b = true.
Proof. revert a b. apply forall_ascii_pairs. vm_compute. reflexivity. Qed.

Lemma hex_not_blank_all a : hex_not_blank a = true.
Proof. revert a. apply forall_ascii. vm_compute. reflexivity. Qed.

Lemma int_two_bounds a b v :
  Py.int_base 16 (two a b) = Some v -> -15 <= v <= 255.
Proof.
  intros H. pose proof (two_bounded_all a b) as Hb.
  unfold two_bounded in Hb. rewrite H in Hb.
  apply andb_true_iff in Hb. destruct Hb as [Hlo Hhi].
  apply Z.leb_le in Hlo, Hhi. lia.
Qed.

Lemma int_two_hex a b :
  hex_digit a = true -> hex_digit b = true ->
  exists v, Py.int_base 16 (two a b) = Some v /\ 0 <= v <= 255.
Proof.
  intros Ha Hb. pose proof (two_hex_valued_all a b) as H.
  unfold two_hex_valued in H. rewrite Ha, Hb in H. cbn [andb] in H.
  destruct (Py.int_base 16 (two a b)) as [v|]; [|discriminate].
  destruct (Py.digit_value a); [|discriminate].
  destruct (Py.digit_value b); [|discriminate].
  apply andb_true_iff in H. destruct H as [H Hhi].
  apply andb_true_iff in H. destruct H as [_ Hlo].
  apply Z.leb_le in Hlo, Hhi. exists v. split; [reflexivity | lia].
Qed.

(** A text of six characters and its three slices. *)
Lemma six_characters (c : string) :
  String.length c = 6%nat ->
  exists a1 a2 a3 a4 a5 a6,
    c = String a1 (String a2 (String a3 (String a4 (String a5 (String a6
          EmptyString)))))
    /\ Py.slice 0 2 c = two a1 a2
    /\ Py.slice 2 4 c = two a3 a4
    /\ Py.slice 4 6 c = two a5 a6.
Proof.
  do 6 (destruct c as [|? c]; [discriminate|]).
  destruct c; [|discriminate].
  intros _. do 6 eexists. repeat split.
Qed.

Lemma parse_hex_color_text s :
  Collage.parse_hex_color s
  = if Nat.eqb (String.length (hex_text s)) 6 then
      match Py.int_base 16 (Py.slice 0 2 (hex_text s)),
            Py.int_base 16 (Py.slice 2 4 (hex_text s)),
            Py.int_base 16 (Py.slice 4 6 (hex_text s)) with
      | Some r, Some g, Some b => (r, g, b, 255)
      | _, _, _ => (0, 0, 0, 255)
      end
    else (0, 0, 0, 255).
Proof. reflexivity. Qed.

(** [strip] leaves a text without blanks as it is. *)
Lemma rstrip_none_blank s :
  none_blank s = true -> Py.rstrip_with Py.isspace s = s.
Proof.
  induction s as [|a r IH]; cbn [none_blank Py.rstrip_with]; [reflexivity|].
  intros H. apply andb_true_iff in H. destruct H as [Ha Hr].
  rewrite (IH Hr). apply negb_true_iff in Ha. rewrite Ha.
  now destruct r.
Qed.

Lemma strip_none_blank s : none_blank s = true -> Py.strip s = s.
Proof.
  intros H. unfold Py.strip.
  assert (Hl : Py.lstrip_with Py.isspace s = s).
  { destruct s as [|a r]; [reflexivity|]. cbn [none_blank] in H.
    apply andb_true_iff in H. destruct H as [Ha _].
    apply negb_true_iff in Ha. cbn [Py.lstrip_with]. now rewrite Ha. }
  rewrite Hl. now apply rstrip_none_blank.
Qed.

Lemma all_hex_none_blank s : all_hex s = true -> none_blank s = true.
Proof.
  induction s as [|a r IH]; cbn [all_hex none_blank]; [reflexivity|].
  intros H. apply andb_true_iff in H. destruct H as [Ha Hr].
  rewrite (IH Hr). pose proof (hex_not_blank_all a) as Hn.
  unfold hex_not_blank in Hn. rewrite Ha in Hn.
  apply andb_true_iff in Hn. destruct Hn as [Hn _]. now rewrite Hn.
Qed.

(** A color that the specification takes to be well formed is read as it is
    written: nothing is stripped from it. *)
Lemma well_formed_hex_text s :
  well_formed_hex s = true ->
  String.length (hex_text s) = 6%nat /\ all_hex (hex_text s) = true.
Proof.
  unfold well_formed_hex, hex_text. intros H.
  apply andb_true_iff in H. destruct H as [Hlen Hhex].
  apply Nat.eqb_eq in Hlen.
  assert (Hs : Py.strip s = s).
  { apply strip_none_blank.
    destruct s as [|a r]; [reflexivity|].
    cbn [Py.startswith Py.tail] in Hhex.
    destruct (Ascii.eqb "#" a) eqn:Ha.
    - apply Ascii.eqb_eq in Ha. subst a. cbn [none_blank].
      now rewrite (all_hex_none_blank r Hhex).
    - now apply all_hex_none_blank. }
  rewrite Hs. now split.
Qed.

(** C10 as the specification states it has every text other than six
    hexadecimal digits, with or without [#], read as opaque black.  The text
    [+1+2+3] is none of these, with or without the blanks that [strip]
    removes, and is read as the color (1,2,3); [-1-2-3] is read as
    (-1,-2,-3). *)
Lemma C10_signed_text_is_not_black :
  well_formed_hex "+1+2+3" = false
  /\ well_formed_hex (Py.strip "+1+2+3") = false
  /\ Collage.parse_hex_color "+1+2+3" = (1, 2, 3, 255)
  /\ Collage.parse_hex_color "+1+2+3" <> (0, 0, 0, 255)
  /\ Collage.parse_hex_color "-1-2-3" = (-1, -2, -3, 255).
Proof. repeat split; try reflexivity. discriminate. Qed.

(** C10, amended: for every text [parse_hex_color] returns, without raising,
    a color [(r, g, b, 255)] whose components lie between -15 and 255; the
    color differs from opaque black only when the stripped text, without its
    leading [#], has exactly six characters and [int(.., 16)] accepts each of
    its three pairs of characters, which it does for two hexadecimal digits
    but also for a digit after a sign or next to a blank; and six hexadecimal
    digits, with or without [#], are read as the three numbers they write,
    each between 0 and 255. *)
Theorem C10_parse_hex_color s :
  (exists r g b,
      Collage.parse_hex_color s = (r, g, b, 255)
      /\ -15 <= r <= 255 /\ -15 <= g <= 255 /\ -15 <= b <= 255)
  /\ (Collage.parse_hex_color s <> (0, 0, 0, 255) ->
      String.length (hex_text s) = 6%nat
      /\ Py.int_base 16 (Py.slice 0 2 (hex_text s)) <> None
      /\ Py.int_base 16 (Py.slice 2 4 (hex_text s)) <> None
      /\ Py.int_base 16 (Py.slice 4 6 (hex_text s)) <> None)
  /\ (well_formed_hex s = true ->
      exists r g b,
        Collage.parse_hex_color s = (r, g, b, 255)
        /\ Py.int_base 16 (Py.slice 0 2 (hex_text s)) = Some r
        /\ Py.int_base 16 (Py.slice 2 4 (hex_text s)) = Some g
        /\ Py.int_base 16 (Py.slice 4 6 (hex_text s)) = Some b
        /\ 0 <= r <= 255 /\ 0 <= g <= 255 /\ 0 <= b <= 255).
Proof.
  rewrite parse_hex_color_text. split; [|split].
  - destruct (Nat.eqb (String.length (hex_text s)) 6) eqn:Hlen.
    + apply Nat.eqb_eq in Hlen.
      destruct (six_characters _ Hlen) as (a1 & a2 & a3 & a4 & a5 & a6
                                           & _ & -> & -> & ->).
      destruct (Py.int_base 16 (two a1 a2)) as [r|] eqn:Hr;
        [|exists 0, 0, 0; repeat split; lia].
      destruct (Py.int_base 16 (two a3 a4)) as [g|] eqn:Hg;
        [|exists 0, 0, 0; repeat split; lia].
      destruct (Py.int_base 16 (two a5 a6)) as [b|] eqn:Hb;
        [|exists 0, 0, 0; repeat split; lia].
      exists r, g, b.
      pose proof (int_two_bounds _ _ _ Hr).
      pose proof (int_two_bounds _ _ _ Hg).
      pose proof (int_two_bounds _ _ _ Hb).
      repeat split; lia.
    + exists 0, 0, 0. repeat split; lia.
  - destruct (Nat.eqb (String.length (hex_text s)) 6) eqn:Hlen;
      [|intros H; now elim H].
    apply Nat.eqb_eq in Hlen. intros H. split; [exact Hlen|].
    destruct (Py.int_base 16 (Py.slice 0 2 (hex_text s)));
      [|now elim H].
    destruct (Py.int_base 16 (Py.slice 2 4 (hex_text s)));
      [|now elim H].
    destruct (Py.int_base 16 (Py.slice 4 6 (hex_text s)));
      [|now elim H].
    repeat split; discriminate.
  - intros Hwf. destruct (well_formed_hex_text s Hwf) as [Hlen Hhex].
    rewrite Hlen. cbn [Nat.eqb].
    destruct (six_characters _ Hlen) as (a1 & a2 & a3 & a4 & a5 & a6
                                         & Hc & -> & -> & ->).
    rewrite Hc in Hhex. cbn [all_hex] in Hhex.
    repeat (apply andb_true_iff in Hhex;
            let H := fresh "Hd" in destruct Hhex as [H Hhex]).
    destruct (int_two_hex a1 a2) as (r & Hr & Hrb); [assumption..|].
    destruct (int_two_hex a3 a4) as (g & Hg & Hgb); [assumption..|].
    destruct (int_two_hex a5 a6) as (b & Hb & Hbb); [assumption..|].
    rewrite Hr, Hg, Hb. exists r, g, b. repeat split; lia.
Qed.

(** C10 at white and at [+1+2+3]. *)
Lemma C10_parse_hex_color_witness :
  (exists r g b,
      Collage.parse_hex_color "#ffffff" = (r, g, b, 255)
      /\ Py.int_base 16 (Py.slice 0 2 (hex_text "#ffffff")) = Some r
      /\ Py.int_base 16 (Py.slice 2 4 (hex_text "#ffffff")) = Some g
      /\ Py.int_base 16 (Py.slice 4 6 (hex_text "#ffffff")) = Some b
      /\ 0 <= r <= 255 /\ 0 <= g <= 255 /\ 0 <= b <= 255)
  /\ (String.length (hex_text "+1+2+3") = 6%nat
      /\ Py.int_base 16 (Py.slice 0 2 (hex_text "+1+2+3")) <> None
      /\ Py.int_base 16 (Py.slice 2 4 (hex_text "+1+2+3")) <> None
      /\ Py.int_base 16 (Py.slice 4 6 (hex_text "+1+2+3")) <> None).
Proof.
  split.
  - apply (proj2 (proj2 (C10_parse_hex_color "#ffffff"))). reflexivity.
  - apply (proj1 (proj2 (C10_parse_hex_color "+1+2+3"))).
    vm_compute. discriminate.
Defined.

(** ** The crop *)

(** The box of [crop_to_aspect] spans the whole width and is placed halfway
    down, or spans the whole height and is placed halfway across. *)
Lemma crop_to_aspect_shape orig_w orig_h target_w target_h l t r d :
  Collage.crop_to_aspect (orig_w, orig_h) target_w target_h = Ok (l, t, r, d) ->
  (l = 0 /\ r = orig_w /\ t = (orig_h - (d - t)) / 2)
  \/ (t = 0 /\ d = orig_h /\ l = (orig_w - (r - l)) / 2).
Proof.
  unfold Collage.crop_to_aspect.
  destruct (Py.int_truediv target_w target_h) as [ta|]; cbn [Py.bind];
    [|discriminate].
  destruct (Py.int_truediv orig_w orig_h) as [oa|]; cbn [Py.bind];
    [|discriminate].
  destruct (Py.float_gt ta oa).
  - destruct (Py.int_div_float orig_w ta) as [q|]; cbn [Py.bind];
      [|discriminate].
    destruct (Py.int_of_float q) as [new_height|]; cbn [Py.bind];
      [|discriminate].
    intros H. injection H as <- <- <- <-. left.
    repeat split. f_equal. lia.
  - destruct (Py.int_mul_float orig_h ta) as [p|]; cbn [Py.bind];
      [|discriminate].
    destruct (Py.int_of_float p) as [new_width|]; cbn [Py.bind];
      [|discriminate].
    intros H. injection H as <- <- <- <-. right.
    repeat split. f_equal. lia.
Qed.

(** C4 at a bitmap of 100 x 100 and a target of 57 x 100: the target is the
    narrower, so the full height is kept, and [crop_to_aspect] returns the
    columns 22 to 78, a region of 56 x 100.  The centered region of 57 x 100,
    columns 21 to 78, lies in the bitmap, has the ratio 57 : 100 exactly and
    contains the region returned, which has not that ratio: the float product
    [100 * (57 / 100)] is 56.99999999999999 and [int] truncates it. *)
Theorem C4_crop_falls_short_of_maximal :
  Collage.crop_to_aspect (100, 100) 57 100 = Ok (22, 0, 78, 100)
  /\ (exists p, Py.int_mul_float 100 (Py.literal 5134103575202365 (-53)) = Ok p
                /\ Py.int_truediv 57 100 = Ok (Py.literal 5134103575202365 (-53))
                /\ Py.float_gt (Py.literal 57 0) p = true
                /\ Py.int_of_float p = Ok 56)
  /\ box_width (22, 0, 78, 100) = 56
  /\ ~ has_aspect (22, 0, 78, 100) 57 100
  /\ has_aspect (21, 0, 78, 100) 57 100
  /\ centered_in (100, 100) (21, 0, 78, 100).
Proof.
  split; [vm_compute; reflexivity|]. split.
  - eexists. repeat split; vm_compute; reflexivity.
  - unfold has_aspect, centered_in, box_width, box_height.
    repeat split; try lia.
Qed.

(** * Further properties of the layout *)

Section RowPackingFrame.

Context {entry : Type}.
Variable skip : entry -> bool.
Variable target_w target_h : entry -> Z.
Variable assign_xy : entry -> Z -> Z -> entry.

Local Abbreviation entry_step := (layout_entry skip target_w target_h assign_xy).
Local Abbreviation loop := (layout_loop skip target_w target_h assign_xy).

(** Whatever the settings and however the loop ends, it does nothing to an
    entry but assign it a position. *)
Lemma layout_loop_touched cw border entries : forall c,
  Forall2 (fun e e' => e' = e \/ exists px py, e' = assign_xy e px py)
    entries (fst (loop cw border c entries)).
Proof.
  induction entries as [|e rest IH]; intros c; cbn [layout_loop].
  - constructor.
  - destruct (entry_step cw border c e) as [[c' e']|ex] eqn:Hstep.
    + specialize (IH c').
      destruct (loop cw border c' rest) as [rest' r]. cbn [fst] in *.
      constructor; [|exact IH].
      destruct (skip e) eqn:Hs.
      * rewrite (layout_entry_skipped _ _ _ _ _ _ _ _ Hs) in Hstep.
        injection Hstep as _ <-. now left.
      * destruct (layout_entry_placed _ _ _ _ _ _ _ _ _ _ Hs Hstep)
          as (c2 & _ & Hpl).
        unfold place in Hpl. injection Hpl as _ ->. right. eauto.
    + cbn [fst]. clear. induction (e :: rest); constructor; auto.
Qed.

(** The only exceptions of the loop are those of the division: when no
    target width is zero, it ends normally or with [OverflowError]. *)
Lemma layout_loop_raises cw border entries : forall c,
  Forall (fun e => target_w e <> 0) entries ->
  snd (loop cw border c entries) = None
  \/ snd (loop cw border c entries) = Some OverflowError.
Proof.
  induction entries as [|e rest IH]; intros c Hall; cbn [layout_loop].
  - now left.
  - inversion Hall as [|? ? Hw Hrest]; subst.
    destruct (entry_step cw border c e) as [[c' e']|ex] eqn:Hstep.
    + specialize (IH c' Hrest).
      now destruct (loop cw border c' rest) as [rest' r].
    + cbn [snd]. right. f_equal.
      unfold layout_entry in Hstep.
      destruct (skip e); [discriminate|].
      destruct (after_full_row cw border c) as [c1 free].
      unfold after_overflow in Hstep.
      destruct (free <? target_w e); [|discriminate].
      unfold Py.int_truediv in Hstep.
      apply Z.eqb_neq in Hw. rewrite Hw in Hstep.
      destruct (Py.is_finite _); cbn [Py.bind] in Hstep; [discriminate|].
      now injection Hstep as <-.
Qed.

(** *** A second run *)

Hypothesis skip_assign : forall e px py, skip (assign_xy e px py) = skip e.
Hypothesis target_w_assign :
  forall e px py, target_w (assign_xy e px py) = target_w e.
Hypothesis target_h_assign :
  forall e px py, target_h (assign_xy e px py) = target_h e.
Hypothesis assign_assign :
  forall e px py qx qy, assign_xy (assign_xy e px py) qx qy = assign_xy e qx qy.

Lemma layout_entry_again cw border c e c' e' :
  entry_step cw border c e = Ok (c', e') ->
  entry_step cw border c e' = Ok (c', e').
Proof.
  intros Hstep. destruct (skip e) eqn:Hs.
  - rewrite (layout_entry_skipped _ _ _ _ _ _ _ _ Hs) in Hstep.
    injection Hstep as <- <-. now apply layout_entry_skipped.
  - destruct (layout_entry_placed _ _ _ _ _ _ _ _ _ _ Hs Hstep)
      as (c2 & Hov & Hpl).
    unfold place in Hpl. injection Hpl as -> ->.
    unfold layout_entry. rewrite skip_assign, Hs.
    destruct (after_full_row cw border c) as [c1 free]. cbn [fst snd] in Hov.
    unfold after_overflow in *. rewrite target_w_assign, Hov. cbn [Py.bind].
    unfold place. now rewrite target_w_assign, target_h_assign, assign_assign.
Qed.

(** Run on its own result, the loop returns that result again, also when
    it raises. *)
Lemma layout_loop_again cw border entries : forall c,
  loop cw border c (fst (loop cw border c entries)) = loop cw border c entries.
Proof.
  induction entries as [|e rest IH]; intros c; cbn [layout_loop].
  - reflexivity.
  - destruct (entry_step cw border c e) as [[c' e']|ex] eqn:Hstep.
    + specialize (IH c').
      destruct (loop cw border c' rest) as [rest' r] eqn:Hrest.
      cbn [fst layout_loop] in *.
      rewrite (layout_entry_again _ _ _ _ _ _ Hstep). now rewrite IH.
    + cbn [fst layout_loop]. now rewrite Hstep.
Qed.

End RowPackingFrame.

(** ** [recalc_layout] of Collage.py: what it leaves alone *)

(** X1: whatever the settings and however it ends, [recalc_layout] keeps the
    number and order of the entries and changes nothing of an entry but its
    automatic position: path, original size, target size and manual position
    are as before. *)
Theorem recalc_layout_frame env app :
  Forall2 same_but_position
    (Collage.images app) (images_after (Collage.recalc_layout env app)).
Proof.
  assert (Hsame : forall l, Forall2 same_but_position l l).
  { induction l; constructor; auto. unfold same_but_position. tauto. }
  unfold Collage.recalc_layout.
  destruct (int_of_str env (Collage.collage_width_var app)) as [cw|];
    [|apply Hsame].
  destruct (int_of_str env (Collage.border_var app)) as [border|];
    [|apply Hsame].
  pose proof (layout_loop_touched Collage.has_manual_position Collage.target_w
                Collage.target_h Collage.set_xy cw border (Collage.images app)
                (start border)) as H.
  unfold Collage.layout, layout.
  destruct (layout_loop _ _ _ _ cw border (start border) (Collage.images app))
    as [placed raised].
  cbn [fst images_after] in *.
  induction H as [|e e' l l' He _ IH]; constructor; [|exact IH].
  destruct He as [->|(px & py & ->)]; unfold same_but_position; cbn; tauto.
Qed.

(** X2: a second [recalc_layout] under the same settings changes nothing:
    run on the entries that a first run left, it leaves the same entries and
    ends in the same way, a first run that raised included. *)
Theorem recalc_layout_idempotent env app :
  let once := Collage.recalc_layout env app in
  Collage.recalc_layout env (with_images app (images_after once)) = once.
Proof.
  cbv zeta. unfold Collage.recalc_layout.
  cbn [with_images Collage.collage_width_var Collage.border_var Collage.images].
  destruct (int_of_str env (Collage.collage_width_var app)) as [cw|];
    [|reflexivity].
  destruct (int_of_str env (Collage.border_var app)) as [border|];
    [|reflexivity].
  pose proof (layout_loop_again Collage.has_manual_position Collage.target_w
                Collage.target_h Collage.set_xy
                (fun _ _ _ => eq_refl) (fun _ _ _ => eq_refl)
                (fun _ _ _ => eq_refl) (fun _ _ _ _ _ => eq_refl)
                cw border (Collage.images app) (start border)) as H.
  unfold Collage.layout, layout.
  destruct (layout_loop _ _ _ _ cw border (start border) (Collage.images app))
    as [placed raised].
  cbn [fst images_after] in *. now rewrite H.
Qed.

(** X3: when no target width is zero, [recalc_layout] returns normally or
    raises [OverflowError]; it raises neither [ZeroDivisionError] nor any
    other exception. *)
Theorem recalc_layout_raises_only_overflow env app :
  Forall (fun e => Collage.target_w e <> 0) (Collage.images app) ->
  value (Collage.recalc_layout env app) = Ok tt
  \/ value (Collage.recalc_layout env app) = Raise OverflowError.
Proof.
  intros Hall. unfold Collage.recalc_layout.
  destruct (int_of_str env (Collage.collage_width_var app)) as [cw|];
    [|now left].
  destruct (int_of_str env (Collage.border_var app)) as [border|];
    [|now left].
  pose proof (layout_loop_raises Collage.has_manual_position Collage.target_w
                Collage.target_h Collage.set_xy cw border (Collage.images app)
                (start border) Hall) as H.
  unfold Collage.layout, layout.
  destruct (layout_loop _ _ _ _ cw border (start border) (Collage.images app))
    as [placed raised].
  cbn [snd value] in *. destruct H as [->| ->]; [now left | now right].
Qed.

(** X3 on the three tiles of 50 x 20. *)
Lemma recalc_layout_raises_only_overflow_witness :
  value (Collage.recalc_layout Sample.env Sample.three_tiles) = Ok tt
  \/ value (Collage.recalc_layout Sample.env Sample.three_tiles)
     = Raise OverflowError.
Proof.
  apply (recalc_layout_raises_only_overflow Sample.env Sample.three_tiles).
  repeat constructor; discriminate.
Defined.

(** ** The rows of [recalc_layout] *)

Section Rows.

Context {entry : Type}.
Variable target_w target_h : entry -> Z.
Variable assign_xy : entry -> Z -> Z -> entry.

Lemma behind_new_row border c r :
  0 <= border -> within border c ->
  behind border c r -> behind border (new_row border c) r.
Proof.
  destruct r as [[[rx ry] rw] rh]. unfold behind, within, new_row; cbn.
  intros Hb (_ & _ & Hrow) [(-> & _ & Hh)|Habove]; right; lia.
Qed.

Lemma behind_after_full_row cw border c r :
  0 <= border -> within border c ->
  behind border c r -> behind border (fst (after_full_row cw border c)) r.
Proof.
  intros Hb Hc Hr. unfold after_full_row.
  destruct (cw - current_x c - border <=? 0); cbn [fst];
    auto using behind_new_row.
Qed.

Lemma behind_after_overflow border c free e c2 r :
  0 <= border -> within border c ->
  after_overflow target_w border c free e = Ok c2 ->
  behind border c r -> behind border c2 r.
Proof.
  intros Hb Hc. unfold after_overflow.
  destruct (free <? target_w e).
  - destruct (Py.int_truediv (target_w e - free) (target_w e)) as [ratio|ex];
      cbn [Py.bind]; [|discriminate].
    intros H. injection H as <-.
    destruct (Py.float_gt ratio OVERFLOW_THRESHOLD); auto using behind_new_row.
  - intros H. now injection H as <-.
Qed.

Lemma behind_place border c e r :
  0 <= target_w e + border ->
  behind border c r ->
  behind border (fst (place target_w target_h assign_xy border c e)) r.
Proof.
  destruct r as [[[rx ry] rw] rh]. unfold behind, place; cbn.
  intros Hw [(-> & Hx & Hh)|Habove]; [left|right]; lia.
Qed.

(** The rectangle just placed lies behind the cursor that follows it. *)
Lemma placed_behind border c e :
  behind border (fst (place target_w target_h assign_xy border c e))
    (current_x c, current_y c, target_w e, target_h e).
Proof. unfold behind, place; cbn. left. lia. Qed.

(** What lies behind the cursor is followed by what is placed at it. *)
Lemma behind_follows border c r :
  behind border c r -> follows border r (current_x c) (current_y c).
Proof.
  destruct r as [[[rx ry] rw] rh]. unfold behind, follows.
  intros [(-> & Hx & _)|Habove]; [left|right]; lia.
Qed.

End Rows.

Lemma nth_error_nil_none {A : Type} (i : nat) (a : A) :
  nth_error (@nil A) i = Some a -> False.
Proof. now destruct i. Qed.

(** The loop of Collage.py from any cursor, run to its end: each entry it
    placed follows every rectangle that lay behind the cursor, and follows
    each entry placed before it. *)
Lemma layout_loop_rows cw border :
  0 <= border ->
  forall entries c placed,
    Forall (fun e => 0 < Collage.target_w e) entries ->
    within border c ->
    layout_loop Collage.has_manual_position Collage.target_w Collage.target_h
      Collage.set_xy cw border c entries = (placed, None) ->
    (forall r j ej,
        behind border c r ->
        nth_error placed j = Some ej ->
        Collage.has_manual_position ej = false ->
        exists xj yj,
          Collage.x ej = Some xj /\ Collage.y ej = Some yj
          /\ follows border r xj yj)
    /\ (forall i j ei ej,
           (i < j)%nat ->
           nth_error placed i = Some ei ->
           nth_error placed j = Some ej ->
           Collage.has_manual_position ei = false ->
           Collage.has_manual_position ej = false ->
           exists xi yi xj yj,
             Collage.x ei = Some xi /\ Collage.y ei = Some yi
             /\ Collage.x ej = Some xj /\ Collage.y ej = Some yj
             /\ follows border
                  (xi, yi, Collage.target_w ei, Collage.target_h ei) xj yj).
Proof.
  intros Hb.
  induction entries as [|e rest IH]; intros c placed Hall Hc Hloop.
  - cbn in Hloop. injection Hloop as <-.
    split; intros; exfalso; eauto using nth_error_nil_none.
  - inversion Hall as [|? ? Hw Hrest]; subst.
    cbn [layout_loop] in Hloop.
    destruct (layout_entry Collage.has_manual_position Collage.target_w
                Collage.target_h Collage.set_xy cw border c e)
      as [[c' e1]|ex] eqn:Hstep; [|discriminate].
    destruct (layout_loop Collage.has_manual_position Collage.target_w
                Collage.target_h Collage.set_xy cw border c' rest)
      as [rest' raised] eqn:Hrest'.
    injection Hloop as <- ->.
    destruct (layout_entry_bounds _ _ _ _ _ _ _ _ _ _ Hb Hw Hc Hstep)
      as [Hc' _].
    destruct (IH c' rest' Hrest Hc' Hrest') as [IHa IHb].
    destruct (Collage.has_manual_position e) eqn:Hs.
    + rewrite (layout_entry_skipped _ _ _ _ _ _ _ _ Hs) in Hstep.
      injection Hstep as <- <-. split.
      * intros r [|j] ej Hr Hj Hm; cbn [nth_error] in Hj.
        -- injection Hj as <-. congruence.
        -- eauto.
      * intros [|i] [|j] ei ej Hij Hi Hj Hmi Hmj; cbn [nth_error] in Hi, Hj;
          try lia.
        -- injection Hi as <-. congruence.
        -- apply (IHb i j); auto. lia.
    + destruct (layout_entry_placed _ _ _ _ _ _ _ _ _ _ Hs Hstep)
        as (c2 & Hov & Hpl).
      pose proof (after_full_row_within cw border c Hb Hc) as Hc1.
      assert (Hbehind : forall r, behind border c r -> behind border c2 r).
      { intros r Hr.
        exact (behind_after_overflow _ _ _ _ _ _ _ Hb Hc1 Hov
                 (behind_after_full_row cw border c r Hb Hc Hr)). }
      assert (Hc'eq : c' = fst (place Collage.target_w Collage.target_h
                                  Collage.set_xy border c2 e))
        by now rewrite <- Hpl.
      assert (He1 : e1 = Collage.set_xy e (current_x c2) (current_y c2)).
      { unfold place in Hpl. now injection Hpl as _ ->. }
      split.
      * intros r [|j] ej Hr Hj Hm; cbn [nth_error] in Hj.
        -- injection Hj as <-. subst e1. cbn.
           exists (current_x c2), (current_y c2).
           repeat split. apply behind_follows. auto.
        -- apply (IHa r j ej); auto.
           rewrite Hc'eq. apply behind_place; [lia|auto].
      * intros [|i] [|j] ei ej Hij Hi Hj Hmi Hmj; cbn [nth_error] in Hi, Hj;
          try lia.
        -- injection Hi as <-.
           destruct (IHa (current_x c2, current_y c2,
                          Collage.target_w e, Collage.target_h e) j ej)
             as (xj & yj & Hxj & Hyj & Hf); auto.
           { rewrite Hc'eq. apply placed_behind. }
           subst e1. cbn.
           exists (current_x c2), (current_y c2), xj, yj. auto.
        -- apply (IHb i j); auto. lia.
Qed.

(** X4: when the border is not negative, every target width is positive and
    [recalc_layout] returns normally, of two entries without a manual
    position the later in the list is placed in the row of the earlier, to
    its right and at least the border away from it, or in a row that starts at
    least the border below the bottom of the earlier: the rectangles of the
    entries laid out never overlap, and keep the border between them. *)
Theorem recalc_layout_rows env app cw border i j ei ej :
  int_of_str env (Collage.collage_width_var app) = Some cw ->
  int_of_str env (Collage.border_var app) = Some border ->
  0 <= border ->
  Forall (fun e => 0 < Collage.target_w e) (Collage.images app) ->
  value (Collage.recalc_layout env app) = Ok tt ->
  (i < j)%nat ->
  nth_error (images_after (Collage.recalc_layout env app)) i = Some ei ->
  nth_error (images_after (Collage.recalc_layout env app)) j = Some ej ->
  Collage.has_manual_position ei = false ->
  Collage.has_manual_position ej = false ->
  exists xi yi xj yj,
    Collage.x ei = Some xi /\ Collage.y ei = Some yi
    /\ Collage.x ej = Some xj /\ Collage.y ej = Some yj
    /\ ((yi = yj /\ xi + Collage.target_w ei + border <= xj)
        \/ yi + Collage.target_h ei + border <= yj).
Proof.
  intros Hw Hbd Hb Hall Hok Hij Hi Hj Hmi Hmj.
  destruct (recalc_layout_parsed env app cw border Hw Hbd) as [Himg Hval].
  rewrite Himg in Hi, Hj. apply Hval in Hok.
  unfold Collage.layout, layout in Hi, Hj, Hok.
  destruct (layout_loop Collage.has_manual_position Collage.target_w
              Collage.target_h Collage.set_xy cw border (start border)
              (Collage.images app)) as [placed raised] eqn:Hloop.
  cbn [fst snd] in *. subst raised.
  destruct (layout_loop_rows cw border Hb (Collage.images app) (start border)
              placed Hall (start_within border) Hloop) as [_ Hpairs].
  exact (Hpairs i j ei ej Hij Hi Hj Hmi Hmj).
Qed.

(** X4 on the first and the third of the three tiles of 50 x 20: the third,
    at (10,70), is below the first, at (10,10). *)
Lemma recalc_layout_rows_witness :
  exists xi yi xj yj,
    Some 10 = Some xi /\ Some 10 = Some yi
    /\ Some 10 = Some xj /\ Some 70 = Some yj
    /\ ((yi = yj /\ xi + 50 + 10 <= xj) \/ yi + 20 + 10 <= yj).
Proof.
  apply (recalc_layout_rows Sample.env Sample.three_tiles 100 10 0 2
           (Collage.set_xy (Sample.tile "a.png" 50 20) 10 10)
           (Collage.set_xy (Sample.tile "c.png" 50 20) 10 70)).
  - reflexivity.
  - reflexivity.
  - lia.
  - repeat constructor.
  - reflexivity.
  - lia.
  - reflexivity.
  - reflexivity.
  - reflexivity.
  - reflexivity.
Defined.

(** * Further properties of the compositor *)

Section CompositorMore.

Variable env : environment.



(** What one iteration pastes is clipped. *)
Lemma composite_entry_clipped cw ch border corner_radius e shown :
  Collage.composite_entry env (border, border, cw - border, ch - border)
    corner_radius e = Ok shown ->
  Forall (paste_clipped (border, border, cw - border, ch - border) [e]) shown.
Proof.
  unfold Collage.composite_entry.
  destruct (Collage.resized env e).
  - destruct (Collage.or_else (Collage.manual_x e) (Collage.x e)) as [px|];
      [|discriminate].
    destruct (Collage.or_else (Collage.manual_y e) (Collage.y e)) as [py|];
      [|discriminate].
    cbn [Collage.intersection].
    destruct ((Z.max px border <? Z.min (px + Collage.target_w e) (cw - border))
              && (Z.max py border
                  <? Z.min (py + Collage.target_h e) (ch - border))) eqn:Hne;
      intros H; injection H as <-; constructor; [|constructor].
    apply andb_true_iff in Hne. destruct Hne as [H02 H13].
    apply Z.ltb_lt in H02, H13.
    unfold paste_clipped, inside, box_width, box_height.
    repeat split; try lia.
    exists e. repeat split; try lia. now left.
  - intros H. injection H as <-. constructor; [exact I|constructor].
Qed.

Lemma paste_clipped_incl safe_area (some all : list Collage.ImageEntry) ev :
  incl some all -> paste_clipped safe_area some ev ->
  paste_clipped safe_area all ev.
Proof.
  intros Hincl. destruct ev; cbn; auto.
  intros (H1 & H2 & H3 & H4 & H5 & e & He & H6). repeat split; auto.
  exists e. split; auto.
Qed.

Lemma composite_loop_clipped cw ch border corner_radius all entries :
  incl entries all ->
  Forall (paste_clipped (border, border, cw - border, ch - border) all)
    (fst (Collage.composite_loop env (border, border, cw - border, ch - border)
            corner_radius entries)).
Proof.
  induction entries as [|e rest IH]; intros Hincl; cbn [Collage.composite_loop].
  - constructor.
  - destruct (Collage.composite_entry env _ corner_radius e) as [shown|ex]
      eqn:He; [|constructor].
    assert (Hrest : incl rest all) by (intros a Ha; apply Hincl; now right).
    specialize (IH Hrest).
    destruct (Collage.composite_loop env _ corner_radius rest)
      as [later raised].
    cbn [fst] in *. apply Forall_app. split; [|exact IH].
    apply composite_entry_clipped in He.
    eapply Forall_impl; [|exact He].
    intros ev. apply paste_clipped_incl.
    intros a [<-|[]]. apply Hincl. now left.
Qed.

End CompositorMore.



(** X6: whatever [build_collage] pastes, it pastes into the safe area: each
    paste has a destination of positive width and height within the canvas
    inset by the border, and takes a region of the same width and height from
    within the resized bitmap of an entry of the list.  This holds of every
    run, those that raise included. *)
Theorem build_collage_pastes_are_clipped env app cw ch border :
  int_of_str env (Collage.collage_width_var app) = Some cw ->
  int_of_str env (Collage.collage_height_var app) = Some ch ->
  int_of_str env (Collage.border_var app) = Some border ->
  Forall (paste_clipped (border, border, cw - border, ch - border)
            (images_after (Collage.build_collage env app)))
    (trace (Collage.build_collage env app)).
Proof.
  intros Hw Hh Hb. unfold Collage.build_collage. rewrite Hw, Hh, Hb.
  destruct (int_of_str env (Collage.corner_radius_var app))
    as [corner_radius|]; [|repeat constructor].
  destruct (image_new env cw ch) as [[]|ex]; [|constructor].
  destruct (value (Collage.recalc_layout env app)) as [[]|ex];
    [|repeat constructor].
  pose proof (composite_loop_clipped env cw ch border corner_radius
                (images_after (Collage.recalc_layout env app))
                (images_after (Collage.recalc_layout env app))
                (incl_refl _)) as H.
  destruct (Collage.composite_loop env _ corner_radius
              (images_after (Collage.recalc_layout env app)))
    as [painted raised].
  cbn [fst trace images_after] in *. constructor; [exact I|exact H].
Qed.

(** X6 on the three files of which the second is unreadable. *)
Lemma build_collage_pastes_are_clipped_witness :
  Forall (paste_clipped (10, 10, 100 - 10, 100 - 10)
            (images_after (Collage.build_collage Sample.env
                             Sample.one_unreadable)))
    (trace (Collage.build_collage Sample.env Sample.one_unreadable)).
Proof.
  apply (build_collage_pastes_are_clipped Sample.env Sample.one_unreadable
           100 100 10); reflexivity.
Defined.

(** * The colors of the window *)

(** Where [hex_to_rgb] returns a color, [parse_hex_color] returns it. *)
Lemma hex_to_rgb_ok_parse s r g b :
  Colors.hex_to_rgb s = Ok (r, g, b) ->
  Collage.parse_hex_color s = (r, g, b, 255).
Proof.
  unfold Colors.hex_to_rgb, Collage.parse_hex_color.
  destruct (Nat.eqb _ 6); [|intros H; now injection H as <- <- <-].
  destruct (Py.int_base 16 (Py.slice 0 2 _)) as [r'|]; [|discriminate].
  destruct (Py.int_base 16 (Py.slice 2 4 _)) as [g'|]; [|discriminate].
  destruct (Py.int_base 16 (Py.slice 4 6 _)) as [b'|]; [|discriminate].
  intros H. now injection H as <- <- <-.
Qed.

(** X7: [hex_to_rgb] and [parse_hex_color] read a color in the same way:
    where [hex_to_rgb] returns [(r, g, b)], [parse_hex_color] returns
    [(r, g, b, 255)]; and where [hex_to_rgb] raises, which it does with
    [ValueError] only, [parse_hex_color] returns opaque black. *)
Theorem hex_to_rgb_parse_hex_color s :
  match Colors.hex_to_rgb s with
  | Ok (r, g, b) => Collage.parse_hex_color s = (r, g, b, 255)
  | Raise ex => ex = ValueError /\ Collage.parse_hex_color s = (0, 0, 0, 255)
  end.
Proof.
  unfold Colors.hex_to_rgb, Collage.parse_hex_color.
  destruct (Nat.eqb _ 6); [|reflexivity].
  destruct (Py.int_base 16 (Py.slice 0 2 _)) as [r|]; [|now split].
  destruct (Py.int_base 16 (Py.slice 2 4 _)) as [g|]; [|now split].
  destruct (Py.int_base 16 (Py.slice 4 6 _)) as [b|]; [|now split].
  reflexivity.
Qed.

Lemma hex_digit_not_blank a : hex_digit a = true -> Py.isspace a = false.
Proof.
  intros Ha. pose proof (hex_not_blank_all a) as H.
  unfold hex_not_blank in H. rewrite Ha in H.
  apply andb_true_iff in H. destruct H as [H _].
  now apply negb_true_iff in H.
Qed.

Lemma channel_written_all v : 0 <= v <= 255 -> channel_written v = true.
Proof.
  intros Hv.
  assert (H : forallb channel_written (Zrange 0 256) = true)
    by (vm_compute; reflexivity).
  rewrite forallb_forall in H. apply H, Zrange_complete. lia.
Qed.

(** A channel from 0 to 255 is written as two hexadecimal digits that are
    read back as the channel. *)
Lemma format_02x_read v :
  0 <= v <= 255 ->
  exists a b,
    PyFormat.format_02x v = two a b
    /\ hex_digit a = true /\ hex_digit b = true
    /\ Py.int_base 16 (two a b) = Some v.
Proof.
  intros Hv. pose proof (channel_written_all v Hv) as H.
  unfold channel_written in H.
  destruct (PyFormat.format_02x v) as [|a [|b [|? ?]]]; try discriminate.
  apply andb_true_iff in H. destruct H as [H Hint].
  apply andb_true_iff in H. destruct H as [Ha Hb].
  exists a, b. repeat split; auto.
  destruct (Py.int_base 16 (two a b)) as [u|]; [|discriminate].
  apply Z.eqb_eq in Hint. now subst.
Qed.

(** X8: a color with channels from 0 to 255 survives being written and read:
    [rgb_to_hex] writes it as [#] and six hexadecimal digits, from which
    [hex_to_rgb] returns the three channels and [parse_hex_color] the same
    opaque color. *)
Theorem rgb_to_hex_round_trip r g b :
  0 <= r <= 255 -> 0 <= g <= 255 -> 0 <= b <= 255 ->
  well_formed_hex (Colors.rgb_to_hex (r, g, b)) = true
  /\ Colors.hex_to_rgb (Colors.rgb_to_hex (r, g, b)) = Ok (r, g, b)
  /\ Collage.parse_hex_color (Colors.rgb_to_hex (r, g, b)) = (r, g, b, 255).
Proof.
  intros Hr Hg Hb.
  destruct (format_02x_read r Hr) as (a1 & a2 & Er & H1 & H2 & Ir).
  destruct (format_02x_read g Hg) as (a3 & a4 & Eg & H3 & H4 & Ig).
  destruct (format_02x_read b Hb) as (a5 & a6 & Eb & H5 & H6 & Ib).
  assert (Hwf : well_formed_hex (Colors.rgb_to_hex (r, g, b)) = true).
  { unfold Colors.rgb_to_hex. rewrite Er, Eg, Eb.
    cbn. now rewrite H1, H2, H3, H4, H5, H6. }
  assert (Hstrip : Py.strip (Colors.rgb_to_hex (r, g, b))
                   = Colors.rgb_to_hex (r, g, b)).
  { apply strip_none_blank. unfold Colors.rgb_to_hex. rewrite Er, Eg, Eb.
    cbn. now rewrite !hex_digit_not_blank by assumption. }
  assert (Hrgb : Colors.hex_to_rgb (Colors.rgb_to_hex (r, g, b)) = Ok (r, g, b)).
  { unfold Colors.hex_to_rgb. rewrite Hstrip.
    unfold Colors.rgb_to_hex. rewrite Er, Eg, Eb.
    cbn [Py.startswith Py.tail Ascii.eqb Bool.eqb append two String.length
         Nat.eqb Py.slice Nat.sub String.substring].
    fold (two a1 a2). fold (two a3 a4). fold (two a5 a6).
    now rewrite Ir, Ig, Ib. }
  repeat split; auto.
  now apply hex_to_rgb_ok_parse.
Qed.

(** X8 at the accent color of the window, (220, 86, 151). *)
Lemma rgb_to_hex_round_trip_witness :
  well_formed_hex (Colors.rgb_to_hex (220, 86, 151)) = true
  /\ Colors.hex_to_rgb (Colors.rgb_to_hex (220, 86, 151)) = Ok (220, 86, 151)
  /\ Collage.parse_hex_color (Colors.rgb_to_hex (220, 86, 151))
     = (220, 86, 151, 255).
Proof. apply (rgb_to_hex_round_trip 220 86 151); lia. Defined.

Lemma lighten_channel_range factor v :
  In factor factors -> 0 <= v <= 255 ->
  exists u, Colors.lighten_channel v factor = Ok u /\ v <= u <= 255.
Proof.
  intros Hf Hv.
  assert (H : forallb (fun f => forallb (lighten_checked f) (Zrange 0 256))
                factors = true) by (vm_compute; reflexivity).
  rewrite forallb_forall in H. specialize (H factor Hf).
  rewrite forallb_forall in H.
  assert (Hin : In v (Zrange 0 256)) by (apply Zrange_complete; lia).
  specialize (H v Hin). unfold lighten_checked in H.
  destruct (Colors.lighten_channel v factor) as [u|]; [|discriminate].
  apply andb_true_iff in H. destruct H as [Hlo Hhi].
  apply Z.leb_le in Hlo, Hhi. exists u. split; [reflexivity | lia].
Qed.

Lemma darken_channel_range factor v :
  In factor factors -> 0 <= v <= 255 ->
  exists u, Colors.darken_channel v factor = Ok u /\ 0 <= u <= v.
Proof.
  intros Hf Hv.
  assert (H : forallb (fun f => forallb (darken_checked f) (Zrange 0 256))
                factors = true) by (vm_compute; reflexivity).
  rewrite forallb_forall in H. specialize (H factor Hf).
  rewrite forallb_forall in H.
  assert (Hin : In v (Zrange 0 256)) by (apply Zrange_complete; lia).
  specialize (H v Hin). unfold darken_checked in H.
  destruct (Colors.darken_channel v factor) as [u|]; [|discriminate].
  apply andb_true_iff in H. destruct H as [Hlo Hhi].
  apply Z.leb_le in Hlo, Hhi. exists u. split; [reflexivity | lia].
Qed.

(** X9: with one of the factors the program uses (0.1, 0.2, 0.3), on a text
    that [hex_to_rgb] reads as a color with channels from 0 to 255,
    [lighten_color] and [darken_color] raise nothing and write a color again:
    lightening leaves each channel between its value and 255, darkening
    between 0 and its value. *)
Theorem lighten_darken_stay_in_range s r g b factor :
  In factor factors ->
  Colors.hex_to_rgb s = Ok (r, g, b) ->
  0 <= r <= 255 -> 0 <= g <= 255 -> 0 <= b <= 255 ->
  (exists r' g' b',
      Colors.lighten_color s factor = Ok (Colors.rgb_to_hex (r', g', b'))
      /\ r <= r' <= 255 /\ g <= g' <= 255 /\ b <= b' <= 255)
  /\ (exists r' g' b',
         Colors.darken_color s factor = Ok (Colors.rgb_to_hex (r', g', b'))
         /\ 0 <= r' <= r /\ 0 <= g' <= g /\ 0 <= b' <= b).
Proof.
  intros Hf Hrgb Hr Hg Hb. split.
  - destruct (lighten_channel_range factor r Hf Hr) as (r' & Er & Hr').
    destruct (lighten_channel_range factor g Hf Hg) as (g' & Eg & Hg').
    destruct (lighten_channel_range factor b Hf Hb) as (b' & Eb & Hb').
    exists r', g', b'. unfold Colors.lighten_color.
    rewrite Hrgb. cbn [Py.bind]. rewrite Er. cbn [Py.bind].
    rewrite Eg. cbn [Py.bind]. rewrite Eb. cbn [Py.bind]. auto.
  - destruct (darken_channel_range factor r Hf Hr) as (r' & Er & Hr').
    destruct (darken_channel_range factor g Hf Hg) as (g' & Eg & Hg').
    destruct (darken_channel_range factor b Hf Hb) as (b' & Eb & Hb').
    exists r', g', b'. unfold Colors.darken_color.
    rewrite Hrgb. cbn [Py.bind]. rewrite Er. cbn [Py.bind].
    rewrite Eg. cbn [Py.bind]. rewrite Eb. cbn [Py.bind]. auto.
Qed.

(** X9 at the accent color with the default factor: the hover color is
    [#e377ab] and the pressed color [#b04478]. *)
Lemma lighten_darken_stay_in_range_witness :
  (exists r' g' b',
      Colors.lighten_color "#dc5697" Colors.factor_0_2
      = Ok (Colors.rgb_to_hex (r', g', b'))
      /\ 220 <= r' <= 255 /\ 86 <= g' <= 255 /\ 151 <= b' <= 255)
  /\ (exists r' g' b',
         Colors.darken_color "#dc5697" Colors.factor_0_2
         = Ok (Colors.rgb_to_hex (r', g', b'))
         /\ 0 <= r' <= 220 /\ 0 <= g' <= 86 /\ 0 <= b' <= 151).
Proof.
  apply (lighten_darken_stay_in_range "#dc5697" 220 86 151 Colors.factor_0_2).
  - right. left. reflexivity.
  - reflexivity.
  - lia.
  - lia.
  - lia.
Defined.

(** * The image dialog *)

(** What [recalc_layout] may do to an entry: nothing, or assign its
    position. *)
Lemma recalc_layout_touched env app :
  Forall2 (fun e e' => e' = e \/ exists px py, e' = Collage.set_xy e px py)
    (Collage.images app) (images_after (Collage.recalc_layout env app)).
Proof.
  assert (Hsame : forall l : list Collage.ImageEntry,
             Forall2 (fun e e' => e' = e
                                  \/ exists px py, e' = Collage.set_xy e px py)
               l l).
  { induction l; constructor; auto. }
  unfold Collage.recalc_layout.
  destruct (int_of_str env (Collage.collage_width_var app)) as [cw|];
    [|apply Hsame].
  destruct (int_of_str env (Collage.border_var app)) as [border|];
    [|apply Hsame].
  pose proof (layout_loop_touched Collage.has_manual_position Collage.target_w
                Collage.target_h Collage.set_xy cw border (Collage.images app)
                (start border)) as H.
  unfold Collage.layout, layout.
  now destruct (layout_loop _ _ _ _ cw border (start border)
                  (Collage.images app)).
Qed.

Lemma touched_same_but_position e e' :
  e' = e \/ (exists px py, e' = Collage.set_xy e px py) ->
  same_but_position e e'.
Proof.
  intros [->|(px & py & ->)]; unfold same_but_position; cbn; tauto.
Qed.








(** X11: pressing OK in the dialog of a new image either shows one warning
    and leaves the list as it was, or shows none and adds one entry at the
    end of the list: the entry has the path and original size of the image,
    the target size typed, which is positive, and the manual coordinates
    typed, [None] for a blank field; the entries before it are those of the
    list, changed in their automatic positions at most. *)
Theorem on_ok_new_entry env app p ow oh f :
  let r := Dialog.on_ok env app (Dialog.NewEntry p ow oh) f in
  (exists title message,
      trace r = [ShowWarning title message]
      /\ images_after r = Collage.images app /\ value r = Ok tt)
  \/ (trace r = []
      /\ exists others added,
          images_after r = others ++ [added]
          /\ Forall2 same_but_position (Collage.images app) others
          /\ Collage.path added = p
          /\ Collage.orig_w added = ow /\ Collage.orig_h added = oh
          /\ int_of_str env (Dialog.tw_entry f) = Some (Collage.target_w added)
          /\ int_of_str env (Dialog.th_entry f) = Some (Collage.target_h added)
          /\ 0 < Collage.target_w added /\ 0 < Collage.target_h added
          /\ Dialog.optional_int env (Dialog.mx_entry f)
             = Some (Collage.manual_x added)
          /\ Dialog.optional_int env (Dialog.my_entry f)
             = Some (Collage.manual_y added)).
Proof.
  cbv zeta. unfold Dialog.on_ok, Dialog.warning.
  destruct (int_of_str env (Dialog.tw_entry f)) as [tw|];
    [|left; do 2 eexists; repeat split].
  destruct (int_of_str env (Dialog.th_entry f)) as [th|];
    [|left; do 2 eexists; repeat split].
  destruct ((tw <=? 0) || (th <=? 0)) eqn:Hsize; [left; do 2 eexists; repeat split|].
  apply orb_false_iff in Hsize. destruct Hsize as [Htw Hth].
  apply Z.leb_gt in Htw, Hth.
  destruct (Dialog.optional_int env (Dialog.mx_entry f)) as [mx|];
    [|left; do 2 eexists; repeat split].
  destruct (Dialog.optional_int env (Dialog.my_entry f)) as [my|];
    [|left; do 2 eexists; repeat split].
  right.
  set (app' := with_images app
                 (Dialog.confirmed app (Dialog.NewEntry p ow oh) tw th mx my)).
  split.
  { unfold Collage.recalc_layout.
    destruct (int_of_str env (Collage.collage_width_var app'));
      [|reflexivity].
    destruct (int_of_str env (Collage.border_var app')); [|reflexivity].
    now destruct (Collage.layout _ _ _). }
  pose proof (recalc_layout_touched env app') as H.
  cbn [app' with_images Collage.images Dialog.confirmed] in H.
  apply Forall2_app_inv_l in H.
  destruct H as (others & last & Hothers & Hlast & Heq).
  inversion Hlast as [|? added ? ? Hadded Hnil]; subst.
  inversion Hnil; subst.
  exists others, added. split; [exact Heq|]. split.
  - eapply Forall2_impl; [|exact Hothers].
    intros a b. apply touched_same_but_position.
  - pose proof (touched_same_but_position _ _ Hadded)
      as (Hp & How & Hoh & Htw' & Hth' & Hmx & Hmy).
    cbn in Hp, How, Hoh, Htw', Hth', Hmx, Hmy.
    rewrite Hp, How, Hoh, Htw', Hth', Hmx, Hmy. repeat split; auto.
Qed.

(** * Numbers written and read *)

Lemma digit_char_decimal d :
  0 <= d < 10 ->
  Py.digit_value (PyFormat.digit_char d) = Some d
  /\ Ascii.eqb (PyFormat.digit_char d) Py.underscore = false
  /\ Py.int_space (PyFormat.digit_char d) = false
  /\ Py.take_sign (String (PyFormat.digit_char d) EmptyString)
     = (false, String (PyFormat.digit_char d) EmptyString).
Proof.
  intros Hd.
  assert (H : d = 0 \/ d = 1 \/ d = 2 \/ d = 3 \/ d = 4 \/ d = 5 \/ d = 6
              \/ d = 7 \/ d = 8 \/ d = 9) by lia.
  repeat (destruct H as [->|H]; [repeat split|]). subst. repeat split.
Qed.

Lemma reads_nothing : reads EmptyString 0 0.
Proof. split; [lia|]. intros a. cbn. f_equal. f_equal. lia. Qed.

Lemma reads_digit d s v k :
  0 <= d < 10 -> reads s v k ->
  reads (String (PyFormat.digit_char d) s) (d * 10 ^ k + v) (k + 1).
Proof.
  intros Hd [Hk Hs]. split; [lia|]. intros a.
  destruct (digit_char_decimal d Hd) as (Hv & Hu & _).
  cbn [Py.scan_digits]. rewrite Hu, Hv.
  replace (d <? 10) with true by (symmetry; apply Z.ltb_lt; lia).
  rewrite Hs. f_equal. f_equal. rewrite Z.pow_add_r by lia. lia.
Qed.

Lemma digits_fuel_reads fuel : forall n acc v k,
  0 <= n < 2 ^ Z.of_nat fuel ->
  reads acc v k ->
  exists k', reads (PyFormat.digits_fuel fuel 10 n acc) (n * 10 ^ k + v) k'.
Proof.
  induction fuel as [|fuel IH]; intros n acc v k Hn Hacc.
  - cbn in Hn. assert (n = 0) by lia. subst. exists k. exact Hacc.
  - cbn [PyFormat.digits_fuel].
    assert (Hmod : 0 <= n mod 10 < 10) by (apply Z.mod_pos_bound; lia).
    pose proof (Z.div_mod n 10 ltac:(lia)) as Hdm.
    pose proof (reads_digit _ _ _ _ Hmod Hacc) as Hacc'.
    destruct (n / 10 =? 0) eqn:Hq.
    + apply Z.eqb_eq in Hq. exists (k + 1).
      replace (n * 10 ^ k + v) with (n mod 10 * 10 ^ k + v); [exact Hacc'|].
      rewrite Hq in Hdm. f_equal. f_equal. lia.
    + assert (Hdiv : 0 <= n / 10 < 2 ^ Z.of_nat fuel).
      { split; [apply Z.div_pos; lia|].
        apply Z.div_lt_upper_bound; [lia|].
        rewrite Nat2Z.inj_succ, Z.pow_succ_r in Hn by lia. lia. }
      destruct (IH (n / 10) _ _ _ Hdiv Hacc') as [k' Hk'].
      exists k'.
      replace (n * 10 ^ k + v)
        with (n / 10 * 10 ^ (k + 1) + (n mod 10 * 10 ^ k + v)); [exact Hk'|].
      destruct Hacc as [Hk _]. rewrite Z.pow_add_r by lia.
      rewrite Hdm at 3. ring.
Qed.

(** The digits of a number start with a digit. *)
Lemma digits_fuel_head fuel : forall n acc,
  0 <= n ->
  exists d s, 0 <= d < 10
              /\ PyFormat.digits_fuel (S fuel) 10 n acc
                 = String (PyFormat.digit_char d) s.
Proof.
  induction fuel as [|fuel IH]; intros n acc Hn.
  - cbn. exists (n mod 10). eexists. split; [apply Z.mod_pos_bound; lia|].
    now destruct (n / 10 =? 0).
  - cbn [PyFormat.digits_fuel].
    destruct (n / 10 =? 0).
    + exists (n mod 10). eexists. split; [apply Z.mod_pos_bound; lia|].
      reflexivity.
    + apply IH. apply Z.div_pos; lia.
Qed.

Lemma int_base_digits n :
  0 <= n -> Py.int_base 10 (PyFormat.digits 10 n) = Some n
            /\ Py.int_base 10 (String "-"%char (PyFormat.digits 10 n))
               = Some (- n).
Proof.
  intros Hn. unfold PyFormat.digits.
  assert (Hfuel : 0 <= n < 2 ^ Z.of_nat (S (Z.to_nat (Z.log2 n)))).
  { split; [exact Hn|].
    rewrite Nat2Z.inj_succ, Z2Nat.id by apply Z.log2_nonneg.
    destruct (Z.eq_dec n 0) as [->|Hnz]; [cbn; lia|].
    apply Z.log2_spec. lia. }
  destruct (digits_fuel_reads _ n EmptyString 0 0 Hfuel reads_nothing)
    as (k & _ & Hscan).
  destruct (digits_fuel_head (Z.to_nat (Z.log2 n)) n EmptyString Hn)
    as (d & s & Hd & Hs).
  rewrite Hs in *.
  destruct (digit_char_decimal d Hd) as (Hv & Hu & Hsp & Hsign).
  assert (Hdigit : Py.is_digit 10 (PyFormat.digit_char d) = true).
  { unfold Py.is_digit. rewrite Hv. apply Z.ltb_lt. lia. }
  assert (Hsign' : Py.take_sign (String (PyFormat.digit_char d) s)
                   = (false, String (PyFormat.digit_char d) s)).
  { unfold Py.take_sign in *.
    destruct (PyFormat.digit_char d) as [[] [] [] [] [] [] [] []];
      try reflexivity; discriminate. }
  split.
  - unfold Py.int_base. cbn [Py.lstrip_with]. rewrite Hsp, Hsign'.
    unfold Py.take_prefix. change (10 =? 16) with false. cbv iota.
    rewrite Hdigit, Hscan. cbn. f_equal. lia.
  - unfold Py.int_base.
    change (Py.lstrip_with Py.int_space
              (String "-" (String (PyFormat.digit_char d) s)))
      with (String "-"%char (String (PyFormat.digit_char d) s)).
    cbn [Py.take_sign].
    unfold Py.take_prefix. change (10 =? 16) with false. cbv iota.
    rewrite Hdigit, Hscan. cbn. f_equal. lia.
Qed.

(** [int(str(n))] is [n]. *)
Lemma int_of_str_of_int n : Py.int_base 10 (PyFormat.str_of_int n) = Some n.
Proof.
  unfold PyFormat.str_of_int. destruct (n <? 0) eqn:Hneg.
  - apply Z.ltb_lt in Hneg.
    destruct (int_base_digits (- n) ltac:(lia)) as [_ H].
    rewrite H. f_equal. lia.
  - apply Z.ltb_ge in Hneg. now destruct (int_base_digits n Hneg).
Qed.

(** * Scaling *)

(** X12: [scale_collage] writes numbers that the layout reads.  When the
    scale, the width and the height are read as floats and the two products
    are finite, the width and height fields afterwards hold the products
    truncated to integers, written so that [int] reads them back; nothing is
    shown; and the entries are laid out for the new width.  A negative scale
    [k] stands for the factor [1 / abs(k)].  ([int] reading the fields as
    Python does, and no preview window being open.) *)
Theorem scale_collage_lays_out_scaled
  env float_of_str scale_var app factor f w h nw nh border :
  int_of_str env = Py.int_base 10 ->
  float_of_str scale_var = Some factor ->
  Scale.effective_factor factor = Ok f ->
  float_of_str (Collage.collage_width_var app) = Some w ->
  float_of_str (Collage.collage_height_var app) = Some h ->
  Py.int_of_float (SFmul Py.prec Py.emax w f) = Ok nw ->
  Py.int_of_float (SFmul Py.prec Py.emax h f) = Ok nh ->
  int_of_str env (Collage.border_var app) = Some border ->
  let r := Scale.scale_collage env float_of_str scale_var app in
  int_of_str env (Collage.collage_width_var (Scale.app_after r)) = Some nw
  /\ int_of_str env (Collage.collage_height_var (Scale.app_after r)) = Some nh
  /\ Collage.images (Scale.app_after r)
     = fst (Collage.layout nw border (Collage.images app))
  /\ Scale.shown r = [].
Proof.
  intros Henv Hscale Hf Hw Hh Hnw Hnh Hb r. subst r.
  unfold Scale.scale_collage, Scale.scaled.
  rewrite Hscale, Hf, Hw, Hh, Hnw. cbn [Py.bind]. rewrite Hnh. cbn [Py.bind].
  cbn [Scale.app_after Scale.shown with_images Scale.with_size
       Collage.collage_width_var Collage.collage_height_var Collage.images].
  rewrite Henv in *. rewrite !int_of_str_of_int.
  repeat split.
  - unfold Collage.recalc_layout.
    cbn [Scale.with_size Collage.collage_width_var Collage.border_var
         Collage.images].
    rewrite Henv, int_of_str_of_int, Hb.
    now destruct (Collage.layout nw border (Collage.images app)).
  - unfold Collage.recalc_layout.
    cbn [Scale.with_size Collage.collage_width_var Collage.border_var
         Collage.images].
    rewrite Henv, int_of_str_of_int, Hb.
    now destruct (Collage.layout nw border (Collage.images app)).
Qed.

(** X12 on the three tiles of 50 x 20 with the scale [-2]: the factor is
    0.5, the canvas of width 100 becomes one of width 50. *)
Lemma scale_collage_lays_out_scaled_witness :
  let r := Scale.scale_collage Sample.env sample_float_of_str "-2"
             Sample.three_tiles in
  int_of_str Sample.env (Collage.collage_width_var (Scale.app_after r))
  = Some 50
  /\ int_of_str Sample.env (Collage.collage_height_var (Scale.app_after r))
     = Some 50
  /\ Collage.images (Scale.app_after r)
     = fst (Collage.layout 50 10 (Collage.images Sample.three_tiles))
  /\ Scale.shown r = [].
Proof.
  apply (scale_collage_lays_out_scaled Sample.env sample_float_of_str "-2"
           Sample.three_tiles (Py.literal (-2) 0) (Py.literal 1 (-1))
           (Py.literal 100 0) (Py.literal 100 0) 50 50 10);
    reflexivity.
Defined.

(** * A manual position set from the preview (Collage-V5.py) *)

Lemma change_nth_at index f entries e :
  nth_error entries index = Some e ->
  nth_error (PreviewV5.change_nth index f entries) index = Some (f e).
Proof.
  revert index. induction entries as [|e0 rest IH]; intros [|index] H;
    cbn in *; try discriminate.
  - now injection H as ->.
  - now apply IH.
Qed.

(** X13: a manual position set from the preview holds.  When the two fields
    are numbers, [set_manual_position] gives the selected entry that manual
    position and locks it; and after any number of layouts that follow, under
    any settings, the entry is still locked, is shown at the position set,
    and has kept the automatic position it had. *)
Theorem set_manual_position_holds
  env app index e xs ys new_x new_y calls :
  nth_error (CollageV5.images app) index = Some e ->
  int_of_str env xs = Some new_x ->
  int_of_str env ys = Some new_y ->
  let set := PreviewV5.set_manual_position env app (Some index) xs ys in
  exists e',
    nth_error (recalc_many env calls (images_after set)) index = Some e'
    /\ CollageV5.get_display_pos e' = (Some new_x, Some new_y)
    /\ CollageV5.locked e' = true
    /\ CollageV5.x e' = CollageV5.x e /\ CollageV5.y e' = CollageV5.y e
    /\ trace set = [].
Proof.
  intros Hi Hx Hy set. subst set.
  unfold PreviewV5.set_manual_position. rewrite Hx, Hy. cbn [images_after trace].
  exists (PreviewV5.pinned e new_x new_y). split.
  - apply recalc_many_keeps_locked; [|reflexivity].
    exact (change_nth_at index (fun e0 => PreviewV5.pinned e0 new_x new_y)
             (CollageV5.images app) e Hi).
  - repeat split.
Qed.

(** X13 on the second of three tiles, moved to (200, 5) and then laid out
    under two settings. *)
Lemma set_manual_position_holds_witness :
  let app := Sample.app_v5 "100" "10"
               [Sample.tile_v5 "a.png" 50 20 false;
                Sample.tile_v5 "b.png" 50 20 false;
                Sample.tile_v5 "c.png" 70 30 false] in
  let set := PreviewV5.set_manual_position Sample.env app (Some 1%nat)
               "200" "5" in
  exists e',
    nth_error (recalc_many Sample.env
                 [("100"%string, "10"%string); ("300"%string, "0"%string)]
                 (images_after set)) 1 = Some e'
    /\ CollageV5.get_display_pos e' = (Some 200, Some 5)
    /\ CollageV5.locked e' = true
    /\ CollageV5.x e' = None /\ CollageV5.y e' = None
    /\ trace set = [].
Proof.
  intros app.
  apply (set_manual_position_holds Sample.env app 1
           (Sample.tile_v5 "b.png" 50 20 false) "200" "5" 200 5);
    reflexivity.
Defined.

(** * The crop, further *)

(** X14: the crop is centered.  Whenever [crop_to_aspect] returns a box, the
    box spans the whole width of the image with margins above and below that
    differ by one pixel at most, the lower being the larger, or spans the
    whole height with such margins left and right. *)
Theorem crop_to_aspect_centered orig_w orig_h target_w target_h l t r d :
  Collage.crop_to_aspect (orig_w, orig_h) target_w target_h = Ok (l, t, r, d) ->
  (l = 0 /\ r = orig_w /\ 0 <= (orig_h - d) - t <= 1)
  \/ (t = 0 /\ d = orig_h /\ 0 <= (orig_w - r) - l <= 1).
Proof.
  intros H. apply crop_to_aspect_shape in H.
  destruct H as [(Hl & Hr & Ht)|(Ht & Hd & Hl)]; [left|right];
    repeat split; auto.
  - pose proof (Z.div_mod (orig_h - (d - t)) 2 ltac:(lia)).
    pose proof (Z.mod_pos_bound (orig_h - (d - t)) 2 ltac:(lia)). lia.
  - pose proof (Z.div_mod (orig_h - (d - t)) 2 ltac:(lia)).
    pose proof (Z.mod_pos_bound (orig_h - (d - t)) 2 ltac:(lia)). lia.
  - pose proof (Z.div_mod (orig_w - (r - l)) 2 ltac:(lia)).
    pose proof (Z.mod_pos_bound (orig_w - (r - l)) 2 ltac:(lia)). lia.
  - pose proof (Z.div_mod (orig_w - (r - l)) 2 ltac:(lia)).
    pose proof (Z.mod_pos_bound (orig_w - (r - l)) 2 ltac:(lia)). lia.
Qed.

(** X14 on a bitmap of 640 x 480 cropped to 16 : 9. *)
Lemma crop_to_aspect_centered_witness :
  (0 = 0 /\ 640 = 640 /\ 0 <= (480 - 420) - 60 <= 1)
  \/ (60 = 0 /\ 420 = 480 /\ 0 <= (640 - 640) - 0 <= 1).
Proof.
  apply (crop_to_aspect_centered 640 480 16 9 0 60 640 420).
  vm_compute. reflexivity.
Defined.

(** X15: an entry of target height zero does not stop the composite.
    [crop_to_aspect] raises [ZeroDivisionError] on a target height of zero,
    whatever the image and the target width; in [build_collage] the exception
    is caught with those of the imaging library, so the iteration for such an
    entry prints its diagnostic, pastes nothing and raises nothing. *)
Theorem zero_height_is_skipped env size target_w safe_area corner_radius e :
  Collage.crop_to_aspect size target_w 0 = Raise ZeroDivisionError
  /\ (Collage.target_h e = 0 ->
      Collage.composite_entry env safe_area corner_radius e
      = Ok [PrintError (Collage.path e)]).
Proof.
  split.
  - destruct size as [ow oh]. reflexivity.
  - intros Hh. apply composite_entry_not_resized.
    unfold Collage.resized.
    destruct (image_open env (Collage.path e)) as [[ow oh]|]; [|reflexivity].
    rewrite Hh. reflexivity.
Qed.

(** X15 on a tile of 50 x 0. *)
Lemma zero_height_is_skipped_witness :
  Collage.composite_entry Sample.env (10, 10, 90, 90) 0
    (Sample.tile "a.png" 50 0)
  = Ok [PrintError "a.png"].
Proof.
  apply (zero_height_is_skipped Sample.env (400, 400) 50 (10, 10, 90, 90) 0
           (Sample.tile "a.png" 50 0)).
  reflexivity.
Defined.

(** * Entries that fit in one row *)

Lemma row_width_nonneg border entries :
  0 <= border ->
  Forall (fun e => 0 < Collage.target_w e) entries ->
  0 <= row_width border entries.
Proof.
  intros Hb. induction 1 as [|e rest He _ IH]; cbn; lia.
Qed.

(** From a cursor with room for all the entries, the loop places them side
    by side, computing no ratio. *)
Lemma layout_loop_in_a_row cw border entries : forall c,
  0 <= border ->
  Forall (fun e => 0 < Collage.target_w e
                   /\ Collage.has_manual_position e = false) entries ->
  current_x c + row_width border entries <= cw ->
  fst (layout_loop Collage.has_manual_position Collage.target_w
         Collage.target_h Collage.set_xy cw border c entries)
  = in_a_row border (current_x c) (current_y c) entries
  /\ snd (layout_loop Collage.has_manual_position Collage.target_w
            Collage.target_h Collage.set_xy cw border c entries) = None.
Proof.
  induction entries as [|e rest IH]; intros c Hb Hall Hfit.
  - now split.
  - inversion Hall as [|? ? [Hw Hm] Hrest]; subst.
    cbn [row_width] in Hfit.
    assert (Hrw : 0 <= row_width border rest).
    { apply row_width_nonneg; [exact Hb|].
      eapply Forall_impl; [|exact Hrest]. now intros a [Ha _]. }
    assert (Hrow : after_full_row cw border c
                   = (c, cw - current_x c - border)).
    { unfold after_full_row.
      replace (cw - current_x c - border <=? 0) with false; [reflexivity|].
      symmetry. apply Z.leb_gt. lia. }
    pose proof (layout_entry_fits Collage.has_manual_position Collage.target_w
                  Collage.target_h Collage.set_xy cw border c e Hm) as Hstep.
    cbv zeta in Hstep. rewrite Hrow in Hstep. cbn [fst] in Hstep.
    specialize (Hstep ltac:(lia)).
    cbn [layout_loop in_a_row]. rewrite Hstep. unfold place.
    set (c' := {| current_x := current_x c + (Collage.target_w e + border);
                  current_y := current_y c;
                  current_row_height :=
                    Z.max (current_row_height c) (Collage.target_h e) |}).
    destruct (IH c' Hb Hrest) as [IHf IHs]; [cbn; lia|].
    destruct (layout_loop Collage.has_manual_position Collage.target_w
                Collage.target_h Collage.set_xy cw border c' rest)
      as [rest' raised].
    cbn [fst snd] in *. split; [|exact IHs]. now rewrite IHf.
Qed.

(** X16: entries that fit side by side are placed side by side.  When the
    border is not negative, no entry has a manual position, every target
    width is positive and the widths, with a border before each and one
    after the last, fit in the canvas width, [recalc_layout] returns normally
    and places the entries in one row at [y = border], the first at
    [x = border] and each next one a border to the right of the one before. *)
Theorem recalc_layout_one_row env app cw border :
  int_of_str env (Collage.collage_width_var app) = Some cw ->
  int_of_str env (Collage.border_var app) = Some border ->
  0 <= border ->
  Forall (fun e => 0 < Collage.target_w e
                   /\ Collage.has_manual_position e = false)
    (Collage.images app) ->
  border + row_width border (Collage.images app) <= cw ->
  Collage.recalc_layout env app
  = Run (in_a_row border border border (Collage.images app)) [] (Ok tt).
Proof.
  intros Hw Hbd Hb Hall Hfit.
  destruct (layout_loop_in_a_row cw border (Collage.images app) (start border)
              Hb Hall Hfit) as [Hf Hs].
  unfold Collage.recalc_layout. rewrite Hw, Hbd.
  unfold Collage.layout, layout.
  destruct (layout_loop Collage.has_manual_position Collage.target_w
              Collage.target_h Collage.set_xy cw border (start border)
              (Collage.images app)) as [placed raised].
  cbn [fst snd start current_x current_y] in *. now subst.
Qed.

(** X16 on three tiles of 50 x 20 and a canvas of width 200: they are placed
    at x = 10, 70 and 130 in the row y = 10. *)
Lemma recalc_layout_one_row_witness :
  Collage.recalc_layout Sample.env
    (Sample.app "200" "100" "10"
       [Sample.tile "a.png" 50 20; Sample.tile "b.png" 50 20;
        Sample.tile "c.png" 50 20])
  = Run [Collage.set_xy (Sample.tile "a.png" 50 20) 10 10;
         Collage.set_xy (Sample.tile "b.png" 50 20) 70 10;
         Collage.set_xy (Sample.tile "c.png" 50 20) 130 10] [] (Ok tt).
Proof.
  apply (recalc_layout_one_row Sample.env
           (Sample.app "200" "100" "10"
              [Sample.tile "a.png" 50 20; Sample.tile "b.png" 50 20;
               Sample.tile "c.png" 50 20]) 200 10).
  - reflexivity.
  - reflexivity.
  - lia.
  - repeat constructor.
  - vm_compute. discriminate.
Defined.

(** * The order of the pastes *)

Lemma composite_entry_paths env safe_area corner_radius e shown :
  Collage.composite_entry env safe_area corner_radius e = Ok shown ->
  event_paths shown = [] \/ event_paths shown = [Collage.path e].
Proof.
  unfold Collage.composite_entry.
  destruct (Collage.resized env e).
  - destruct (Collage.or_else (Collage.manual_x e) (Collage.x e)) as [px|];
      [|discriminate].
    destruct (Collage.or_else (Collage.manual_y e) (Collage.y e)) as [py|];
      [|discriminate].
    destruct (Collage.intersection _ safe_area) as [[[i0 i1] i2] i3].
    destruct ((i0 <? i2) && (i1 <? i3)); intros H; injection H as <-;
      [now right | now left].
  - intros H. injection H as <-. now right.
Qed.

Lemma composite_loop_in_order env safe_area corner_radius entries :
  subsequence
    (event_paths (fst (Collage.composite_loop env safe_area corner_radius
                         entries)))
    (map Collage.path entries).
Proof.
  induction entries as [|e rest IH]; cbn [Collage.composite_loop map].
  - constructor.
  - destruct (Collage.composite_entry env safe_area corner_radius e)
      as [shown|ex] eqn:He; [|constructor].
    destruct (Collage.composite_loop env safe_area corner_radius rest)
      as [later raised].
    cbn [fst] in *. unfold event_paths in *. rewrite flat_map_app.
    destruct (composite_entry_paths _ _ _ _ _ He) as [Hp|Hp];
      unfold event_paths in Hp; rewrite Hp; cbn [app];
      constructor; exact IH.
Qed.

(** X17: [build_collage] paints in the order of the list.  In every run, the
    entries it pastes or reports as unreadable appear in its trace in the
    order of [self.images], each at most once: what is pasted later lies
    over what was pasted before it, as the list orders them. *)
Theorem build_collage_paints_in_order env app :
  subsequence (event_paths (trace (Collage.build_collage env app)))
    (map Collage.path (images_after (Collage.build_collage env app))).
Proof.
  unfold Collage.build_collage.
  destruct (int_of_str env (Collage.collage_width_var app)) as [cw|];
    [|constructor].
  destruct (int_of_str env (Collage.collage_height_var app)) as [ch|];
    [|constructor].
  destruct (int_of_str env (Collage.border_var app)) as [border|];
    [|constructor].
  destruct (int_of_str env (Collage.corner_radius_var app))
    as [corner_radius|]; [|constructor].
  destruct (image_new env cw ch) as [[]|ex]; [|constructor].
  destruct (value (Collage.recalc_layout env app)) as [[]|ex];
    [|constructor].
  pose proof (composite_loop_in_order env
                (border, border, cw - border, ch - border) corner_radius
                (images_after (Collage.recalc_layout env app))) as H.
  destruct (Collage.composite_loop env _ corner_radius
              (images_after (Collage.recalc_layout env app)))
    as [painted raised].
  exact H.
Qed.

(** * Manual positions in the two versions *)

(** X18: a manual position takes room in Collage-V5.py, and none in
    Collage.py.  In Collage.py the loop of the layout passes over an entry
    with both manual coordinates, cursor unchanged.  In Collage-V5.py such an
    entry, unless it is locked, is still assigned an automatic position and
    the cursor advances past it by its width and the border, although the
    entry goes on being shown at its manual position. *)
Theorem manual_position_in_both_versions cw border c :
  (forall e : Collage.ImageEntry,
      Collage.has_manual_position e = true ->
      Collage.layout_entry cw border c e = Ok (c, e))
  /\ (forall (e e' : CollageV5.ImageEntry) c' mx my,
         CollageV5.locked e = false ->
         CollageV5.manual_x e = Some mx ->
         CollageV5.manual_y e = Some my ->
         CollageV5.layout_entry cw border c e = Ok (c', e') ->
         CollageV5.get_display_pos e' = (Some mx, Some my)
         /\ exists px py,
             CollageV5.x e' = Some px /\ CollageV5.y e' = Some py
             /\ current_x c' = px + (CollageV5.target_w e + border)
             /\ current_y c' = py).
Proof.
  split.
  - intros e Hm. now apply layout_entry_skipped.
  - intros e e' c' mx my Hl Hx Hy Hstep.
    destruct (layout_entry_placed _ _ _ _ _ _ _ _ _ _ Hl Hstep)
      as (c2 & _ & Hpl).
    unfold place in Hpl. injection Hpl as -> ->.
    unfold CollageV5.get_display_pos. cbn. rewrite Hx, Hy. cbn.
    split; [reflexivity|].
    exists (current_x c2), (current_y c2). repeat split.
Qed.

(** X18 on a tile of 50 x 20 with the manual position (300, 5), met by the
    cursor (10, 10) on a canvas of width 200 with border 10. *)
Lemma manual_position_in_both_versions_witness :
  let manual := Sample.with_manual (Some 300) (Some 5)
                  (Sample.tile "a.png" 50 20) in
  let manual_v5 :=
    {| CollageV5.path := "a.png"; CollageV5.orig_w := 400;
       CollageV5.orig_h := 400;
       CollageV5.target_w := 50; CollageV5.target_h := 20;
       CollageV5.x := None; CollageV5.y := None;
       CollageV5.manual_x := Some 300; CollageV5.manual_y := Some 5;
       CollageV5.locked := false; CollageV5.corner_radius := 0;
       CollageV5.template_tag := None |} in
  Collage.layout_entry 200 10 (start 10) manual = Ok (start 10, manual)
  /\ (CollageV5.get_display_pos (CollageV5.set_xy manual_v5 10 10)
      = (Some 300, Some 5)
      /\ exists px py,
          CollageV5.x (CollageV5.set_xy manual_v5 10 10) = Some px
          /\ CollageV5.y (CollageV5.set_xy manual_v5 10 10) = Some py
          /\ current_x (Cursor 70 10 20) = px + (50 + 10)
          /\ current_y (Cursor 70 10 20) = py).
Proof.
  intros manual manual_v5.
  destruct (manual_position_in_both_versions 200 10 (start 10))
    as [latest older].
  split.
  - apply latest. reflexivity.
  - apply (older manual_v5 (CollageV5.set_xy manual_v5 10 10)
             (Cursor 70 10 20) 300 5); reflexivity.
Defined.
